(** * rd_clip_sample: CLIP guided sampling from a diffusion model

    A shallow embedding of [rd_clip_sample.py].  Strings are Rocq strings,
    Python exceptions are an error type threaded through a result monad,
    real-valued tensor entries are idealised as real numbers, and the
    external collaborators (jax, the diffusion model, the CLIP model, the
    sampler) are the fields of an interface that the code is written
    against. *)

From Stdlib Require Import String Ascii DecimalString Bool Arith ZArith NArith.
From Stdlib Require Import Lia List Permutation Sorted DecimalN Finite.
From Stdlib Require Import Reals Lra.
Import ListNotations.

Set Implicit Arguments.

(** ** Python exceptions and the result monad *)

Inductive exn : Type :=
| AttributeError (obj attr : string)
    (* '<obj>' object has no attribute '<attr>' *)
| ValueError (msg : string)
| TypeError (msg : string)
| IndexError (msg : string)
| ExternalError (msg : string).

Inductive result (A : Type) : Type :=
| Ok (a : A)
| Raise (e : exn).

Arguments Ok {A} a.
Arguments Raise {A} e.

Definition bind {A B : Type} (m : result A) (k : A -> result B) : result B :=
  match m with
  | Ok a => k a
  | Raise e => Raise e
  end.

Notation "x <- m ;; k" := (bind m (fun x => k))
  (at level 61, m at next level, right associativity).

Definition is_ok {A : Type} (m : result A) : bool :=
  match m with Ok _ => true | Raise _ => false end.

(** ** Python string primitives used by [parse_prompts] *)

Module PyStr.

Open Scope string_scope.
Open Scope char_scope.

(** [s.split(sep)] for a one-character separator: one more part than
    there are separators, empty parts kept. *)
Fixpoint split (sep : ascii) (s : string) : list string :=
  match s with
  | EmptyString => [EmptyString]
  | String c s' =>
      if Ascii.eqb c sep then EmptyString :: split sep s'
      else match split sep s' with
           | h :: t => String c h :: t
           | [] => [String c EmptyString]
           end
  end.

(** [s.lstrip(' ')] *)
Fixpoint lstrip (s : string) : string :=
  match s with
  | String c s' => if Ascii.eqb c " " then lstrip s' else s
  | EmptyString => EmptyString
  end.

(** [s.rstrip(' ')] *)
Fixpoint rstrip (s : string) : string :=
  match s with
  | EmptyString => EmptyString
  | String c s' =>
      match rstrip s' with
      | EmptyString => if Ascii.eqb c " " then EmptyString
                       else String c EmptyString
      | r => String c r
      end
  end.

Fixpoint contains (sep : ascii) (s : string) : bool :=
  match s with
  | EmptyString => false
  | String c s' => Ascii.eqb c sep || contains sep s'
  end.

End PyStr.

(** ** Python's [float(...)] on strings

    The value of a literal is kept as the decimal it denotes (sign, digits,
    power of ten); rounding to binary64 is not modelled.  Only ASCII input
    is covered. *)

Module PyFloat.

Open Scope char_scope.

Inductive t : Type :=
| Finite (neg : bool) (digits : N) (exp10 : Z)
| Inf (neg : bool)
| NaN.

Definition one : t := Finite false 1 0.

Definition is_digit (c : ascii) : bool :=
  let n := nat_of_ascii c in (48 <=? n)%nat && (n <=? 57)%nat.

Definition digit_val (c : ascii) : N := N.of_nat (nat_of_ascii c - 48).

(** Whitespace removed by [float] on both sides: space, \t \n \v \f \r
    and the separators 0x1c-0x1f. *)
Definition is_space (c : ascii) : bool :=
  let n := nat_of_ascii c in
  (n =? 32)%nat || ((9 <=? n)%nat && (n <=? 13)%nat)
  || ((28 <=? n)%nat && (n <=? 31)%nat).

Definition lower (c : ascii) : ascii :=
  let n := nat_of_ascii c in
  if (65 <=? n)%nat && (n <=? 90)%nat then ascii_of_nat (n + 32) else c.

Fixpoint drop_space (l : list ascii) : list ascii :=
  match l with
  | c :: l' => if is_space c then drop_space l' else l
  | [] => []
  end.

Definition strip (l : list ascii) : list ascii :=
  rev (drop_space (rev (drop_space l))).

(** The tail of a digit part: digits, each optionally preceded by one
    underscore.  Returns the accumulated value, the number of digits read
    and the unread rest. *)
Fixpoint digits_tail (acc : N) (n : nat) (l : list ascii)
  : N * nat * list ascii :=
  match l with
  | c :: l' =>
      if is_digit c then digits_tail (acc * 10 + digit_val c) (S n) l'
      else if Ascii.eqb c "_" then
        match l' with
        | d :: l'' =>
            if is_digit d
            then digits_tail (acc * 10 + digit_val d) (S n) l''
            else (acc, n, l)
        | [] => (acc, n, l)
        end
      else (acc, n, l)
  | [] => (acc, n, l)
  end.

(** [digitpart ::= digit (["_"] digit)*], continuing from [acc]. *)
Definition digitpart (acc : N) (l : list ascii)
  : option (N * nat * list ascii) :=
  match l with
  | c :: l' =>
      if is_digit c then Some (digits_tail (acc * 10 + digit_val c) 1 l')
      else None
  | [] => None
  end.

Definition sign (l : list ascii) : bool * list ascii :=
  match l with
  | "+" :: l' => (false, l')
  | "-" :: l' => (true, l')
  | _ => (false, l)
  end.

(** [exponent ::= ("e" | "E") ["+" | "-"] digitpart]; the whole rest of
    the input has to be consumed. *)
Definition exponent (l : list ascii) : option Z :=
  match l with
  | [] => Some 0%Z
  | c :: l' =>
      if Ascii.eqb (lower c) "e" then
        let '(neg, l'') := sign l' in
        match digitpart 0 l'' with
        | Some (v, _, []) =>
            Some (if neg then (- Z.of_N v)%Z else Z.of_N v)
        | _ => None
        end
      else None
  end.

(** The mantissa [digitpart ["." [digitpart]] | "." digitpart]: returns
    the digits, the number of fraction digits and the rest. *)
Definition mantissa (l : list ascii) : option (N * nat * list ascii) :=
  match digitpart 0 l with
  | Some (i, _, "." :: l1) =>
      match digitpart i l1 with
      | Some (m, k, l2) => Some (m, k, l2)
      | None => Some (i, 0%nat, l1)
      end
  | Some (i, _, l1) => Some (i, 0%nat, l1)
  | None =>
      match l with
      | "." :: l1 =>
          match digitpart 0 l1 with
          | Some (m, k, l2) => Some (m, k, l2)
          | None => None
          end
      | _ => None
      end
  end.

Definition special (l : list ascii) : option (bool -> t) :=
  let w := map lower l in
  if list_eq_dec ascii_dec w ["i"; "n"; "f"] then Some Inf
  else if list_eq_dec ascii_dec w ["i"; "n"; "f"; "i"; "n"; "i"; "t"; "y"]
       then Some Inf
  else if list_eq_dec ascii_dec w ["n"; "a"; "n"] then Some (fun _ => NaN)
  else None.

(** [float(s)] for a string [s]: [None] stands for the ValueError
    "could not convert string to float". *)
Definition of_string (s : string) : option t :=
  let '(neg, body) := sign (strip (list_ascii_of_string s)) in
  match special body with
  | Some mk => Some (mk neg)
  | None =>
      match mantissa body with
      | Some (m, k, rest) =>
          match exponent rest with
          | Some e => Some (Finite neg m (e - Z.of_nat k))
          | None => None
          end
      | None => None
      end
  end.

End PyFloat.


(** ** The prompt parser *)

Module Prompt.

Open Scope string_scope.

(** The argument of [parse_prompts]: whatever argparse stored, that is
    a string or [None]. *)
Inductive pyarg : Type :=
| PyNone
| PyString (s : string).

(** A weight as it sits in [target_w]: the int [1] appended by the
    undelimited branch, or the result of [float(w)]. *)
Inductive weight : Type :=
| WInt (z : Z)
| WFloat (f : PyFloat.t).

(** The local [p] of the loop body: a string after the tuple unpacking,
    the whole list of parts otherwise. *)
Inductive pyval : Type :=
| VStr (s : string)
| VList (l : list string).

(** What [w] is bound to in the loop body. *)
Inductive pyw : Type :=
| WOfStr (s : string)
| WOfInt (z : Z).

(** [p.lstrip(' ').rstrip(' ')] *)
Definition strip_spaces (p : pyval) : result string :=
  match p with
  | VStr s => Ok (PyStr.rstrip (PyStr.lstrip s))
  | VList _ => Raise (AttributeError "list" "lstrip")
  end.

(** [float(w)] *)
Definition to_float (w : pyw) : result PyFloat.t :=
  match w with
  | WOfInt z => Ok (PyFloat.Finite (z <? 0)%Z (Z.abs_N z) 0)
  | WOfStr s =>
      match PyFloat.of_string s with
      | Some f => Ok f
      | None =>
          Raise (ValueError ("could not convert string to float: " ++ s))
      end
  end.

(** Lines 44-49: the split on ':' and the binding of [p] and [w]. *)
Definition split_segment (prompt : string) : pyval * pyw :=
  match PyStr.split ":" prompt with
  | [p; w] => (VStr p, WOfStr w)
  | parts => (VList parts, WOfInt 1)
  end.

(** One iteration of the loop, lines 44-51. *)
Definition parse_segment (prompt : string) : result (string * weight) :=
  let '(p, w) := split_segment prompt in
  p' <- strip_spaces p ;;
  f <- to_float w ;;
  Ok (p', WFloat f).

(** The [for] loop over [splt], accumulating into the two lists. *)
Fixpoint parse_segments (splt : list string) (target_p : list string)
         (target_w : list weight) : result (list string * list weight) :=
  match splt with
  | [] => Ok (target_p, target_w)
  | prompt :: rest =>
      pw <- parse_segment prompt ;;
      parse_segments rest (target_p ++ [fst pw]) (target_w ++ [snd pw])
  end.

Definition parse_prompts (prompts : pyarg)
  : result (list string * list weight) :=
  match prompts with
  | PyNone => Raise (AttributeError "NoneType" "split")
  | PyString s =>
      let splt := PyStr.split "|" s in
      if list_eq_dec string_dec splt [s]
      then Ok ([s], [WInt 1])
      else parse_segments splt [] []
  end.

End Prompt.

(** ** The spherical distance scorer

    Array entries are idealised as real numbers.  [norm2] works along the
    last axis, so it is given on one vector; the scorer is given for the way
    it is called, a batch of embeddings against one target embedding, the
    target being broadcast over the batch.  The elementwise product is
    given for vectors of one length, which is what the embedding model
    produces; the results below carry equal lengths as a hypothesis. *)

Module Scorer.

Open Scope R_scope.

Definition vec : Type := list R.

(** [jnp.sum] over the last axis *)
Definition sum (x : vec) : R := fold_right Rplus 0 x.

(** [jnp.square] *)
Definition square (x : vec) : vec := map (fun a => a * a) x.

(** elementwise [*] *)
Definition vmul (x y : vec) : vec :=
  map (fun ab => fst ab * snd ab) (combine x y).

Definition scale (a : R) (x : vec) : vec := map (fun c => a * c) x.


Definition norm2 (x : vec) : vec :=
  map (fun a => a / sqrt (sum (square x))) x.

(** One row of the batch against the target. *)
Definition spherical_dist_loss1 (x y : vec) : R :=
  (acos (sum (vmul (norm2 x) (norm2 y))))² / 2.

Definition spherical_dist_loss (x : list vec) (y : vec) : list R :=
  map (fun xi => spherical_dist_loss1 xi y) x.

Definition nonzero (x : vec) : Prop := Exists (fun a => a <> 0) x.

End Scorer.

(** ** The numeric backend

    Everything [main] imports from jax, einops, PIL, [diffusion] and
    [clip_jax], as one interface: the operations the code calls and the
    part of their contract the results below rely on (the shapes they
    return).  Scalars are real numbers. *)

Definition shape_t : Type := list nat.

Record Backend : Type := {
  tensor : Type;
  key : Type;
  model : Type;
  params : Type;
  clip_params : Type;
  extra_args : Type;

  shape : tensor -> shape_t;

  (* the real number a Python float stands for *)
  float_val : PyFloat.t -> R;

  (* arithmetic, a scalar operand being broadcast *)
  tmul : tensor -> tensor -> tensor;
  tadd : tensor -> tensor -> tensor;
  tsub : tensor -> tensor -> tensor;
  tdiv : tensor -> tensor -> tensor;
  tmul_s : tensor -> R -> tensor;
  tadd_s : tensor -> R -> tensor;
  tdiv_s : tensor -> R -> tensor;

  (* jnp *)
  array : list R -> tensor;
  reshape : tensor -> shape_t -> tensor;
  ones : shape_t -> tensor;
  full : shape_t -> R -> tensor;               (* einops.repeat of a scalar *)
  pad_edge : tensor -> list (nat * nat) -> tensor;
  unstack : tensor -> list tensor;             (* the slices along axis 0 *)
  stack : list tensor -> tensor;

  (* jax.random *)
  PRNGKey : Z -> key;
  split : key -> key * key;
  normal : key -> shape_t -> tensor;
  uniform : key -> shape_t -> R -> R -> tensor;

  (* jax.image, method 'cubic' *)
  image_resize : tensor -> shape_t -> tensor;
  scale_and_translate :
    tensor -> shape_t -> list nat -> tensor -> tensor -> tensor;
  sat_out_shape : shape_t -> shape_t -> list nat -> shape_t;

  (* jax.grad on a function with a floating-point scalar output *)
  grad : (tensor -> R) -> tensor -> tensor;

  (* diffusion *)
  get_model : string -> model;
  model_shape : model -> shape_t;
  model_apply : model -> params -> key -> tensor -> tensor -> extra_args
                -> tensor;
  load_params : string -> params;
  no_extra_args : extra_args;                  (* the empty dict *)
  t_to_alpha_sigma : R -> R * R;
  get_ddpm_schedule : list R -> list R;
  sample_loop : model -> params -> key -> tensor -> list R -> R
                -> (tensor -> key -> R -> extra_args -> result tensor)
                -> tensor;

  (* clip_jax and PIL *)
  clip_load : string -> clip_params;
  text_fn : clip_params -> string -> list R;   (* tokenize, then encode *)
  image_fn : clip_params -> tensor -> list (list R);
  open_target : string -> tensor;              (* open, preprocess, add axis *)
  open_init : string -> nat * nat -> tensor;   (* open, resize, add axis *)

  (* contracts *)
  shape_image_resize : forall x s, shape (image_resize x s) = s;
  shape_pad_edge : forall x pads,
    length pads = length (shape x) ->
    shape (pad_edge x pads)
    = map (fun dp => fst (snd dp) + fst dp + snd (snd dp))
          (combine (shape x) pads);
  shape_ones : forall s, shape (ones s) = s;
  shape_uniform : forall k s lo hi, shape (uniform k s lo hi) = s;
  shape_normal : forall k s, shape (normal k s) = s;
  shape_unstack : forall x n s,
    shape x = n :: s ->
    length (unstack x) = n /\ Forall (fun xi => shape xi = s) (unstack x);
  shape_stack : forall x xs,
    Forall (fun y => shape y = shape x) xs ->
    shape (stack (x :: xs)) = S (length xs) :: shape x;
  shape_scale_and_translate : forall img sh dims sc tr,
    shape (scale_and_translate img sh dims sc tr)
    = sat_out_shape (shape img) sh dims;
  sat_out_ndim : forall ish sh dims,
    length sh = length ish -> length (sat_out_shape ish sh dims) = length sh;
  sat_out_spatial : forall ish sh dims d,
    length sh = length ish -> In d dims ->
    nth d (sat_out_shape ish sh dims) 0 = nth d sh 0;
  shape_grad : forall f x, shape (grad f x) = shape x;
  shape_tmul_s : forall x a, shape (tmul_s x a) = shape x;
  shape_sample_loop : forall m p k x steps eta f,
    shape (sample_loop m p k x steps eta f) = shape x
}.

(** ** The guidance gradient function *)

Module Guidance.

(** What a Python expression of the loss evaluates to: the int literal
    [0] the accumulation starts from, or a jax floating-point scalar. *)
Inductive pynum : Type :=
| PyInt (z : Z)
| JaxScalar (r : R).

Definition num_val (v : pynum) : R :=
  match v with
  | PyInt z => IZR z
  | JaxScalar r => r
  end.

(** The message of the TypeError [jax.grad] raises on an integer output. *)
Definition grad_int_output : string :=
  "grad requires real-valued outputs (output dtype that is a sub-dtype of np.floating), but got int32".

Section WithBackend.

Variable B : Backend.

(** The variables of [main] that the nested functions close over. *)
Record closure : Type := {
  the_model : model B;
  clip_size : nat;
  clip_patch_size : nat;
  normalize : tensor B -> tensor B;
  target_embeds : list (list R);
  target_w : list R;
  target_img_embeds : list (list R);
  target_img_w : list R;
  clip_guidance_scale : R
}.

Definition make_normalize (mean std : list R) : tensor B -> tensor B :=
  let mean := reshape B (array B mean) [3; 1; 1]%nat in
  let std := reshape B (array B std) [3; 1; 1]%nat in
  fun image => tdiv B (tsub B image mean) std.

Variable c : closure.

(** [jax.vmap(partial(jax.image.scale_and_translate, method='cubic'),
    in_axes=(0, None, None, 0, 0))] *)
Definition sat_vmap (image : tensor B) (sh : shape_t) (dims : list nat)
           (scales translates : tensor B) : tensor B :=
  stack B
    (map (fun ist =>
            scale_and_translate B (fst (fst ist)) sh dims
                                (snd (fst ist)) (snd ist))
         (combine (combine (unstack B image) (unstack B scales))
                  (unstack B translates))).

Definition extent : nat := clip_patch_size c / 2.

(** Line 147 *)
Definition resized (pred : tensor B) : tensor B :=
  image_resize B pred
    (firstn 2 (shape B pred) ++ [clip_size c; clip_size c]).

(** Lines 148-149 *)
Definition padded (pred : tensor B) : tensor B :=
  pad_edge B (resized pred)
    [(0, 0); (0, 0); (extent, extent); (extent, extent)]%nat.

(** Line 152 *)
Definition scales (pred : tensor B) : tensor B :=
  ones B [hd 0%nat (shape B pred); 2%nat].

(** Line 153 *)
Definition translates (k : key B) (pred : tensor B) : tensor B :=
  uniform B k [hd 0%nat (shape B pred); 2%nat]
          (- INR extent) (INR extent).

(** Lines 147-154: the value of [clip_in] handed to the normalisation. *)
Definition augment (k : key B) (pred : tensor B) : tensor B :=
  sat_vmap (padded pred) [3; clip_size c; clip_size c]%nat [1; 2]%nat
           (scales pred) (translates k pred).

(** Lines 143-146 *)
Definition predict (x : tensor B) (p : params B) (t : R)
           (ea : extra_args B) : tensor B :=
  let dummy_key := PRNGKey B 0 in
  let v := model_apply B (the_model c) p dummy_key x
                       (full B [hd 0%nat (shape B x)] t) ea in
  let '(alpha, sigma) := t_to_alpha_sigma B t in
  tsub B (tmul_s B x alpha) (tmul_s B v sigma).

(** Line 155 *)
Definition image_embeds (x : tensor B) (k : key B) (p : params B)
           (cp : clip_params B) (t : R) (ea : extra_args B)
  : list (list R) :=
  image_fn B cp
    (normalize c (tdiv_s B (tadd_s B (augment k (predict x p t ea)) 1) 2)).

(** The body of both [for] loops, lines 158 and 160. *)
Definition add_term (embeds : list (list R)) (total_loss : pynum)
           (ew : list R * R) : pynum :=
  JaxScalar
    (num_val total_loss
     + Scorer.sum (Scorer.spherical_dist_loss embeds (fst ew)) * snd ew).

Definition clip_cond_fn_loss (x : tensor B) (k : key B) (p : params B)
           (cp : clip_params B) (t : R) (ea : extra_args B) : pynum :=
  let embeds := image_embeds x k p cp t ea in
  let total_loss := PyInt 0 in
  let total_loss :=
    fold_left (add_term embeds)
              (combine (target_embeds c) (target_w c)) total_loss in
  let total_loss :=
    fold_left (add_term embeds)
              (combine (target_img_embeds c) (target_img_w c))
              total_loss in
  total_loss.

(** [jax.grad(f)(x)]: the output of [f] has to be a floating-point
    scalar; an integer output is rejected with a TypeError. *)
Definition jax_grad (f : tensor B -> pynum) (x : tensor B)
  : result (tensor B) :=
  match f x with
  | PyInt _ => Raise (TypeError grad_int_output)
  | JaxScalar _ => Ok (grad B (fun x' => num_val (f x')) x)
  end.

Definition clip_cond_fn (x : tensor B) (k : key B) (t : R)
           (ea : extra_args B) (p : params B) (cp : clip_params B)
  : result (tensor B) :=
  g <- jax_grad (fun x' => clip_cond_fn_loss x' k p cp t ea) x ;;
  Ok (tmul_s B g (- clip_guidance_scale c)).

End WithBackend.

End Guidance.

(** ** Python's [range] and the file name format *)

Module PyInt.

Open Scope Z_scope.

Definition range_len (start stop step : Z) : Z :=
  if 0 <? step then
    if start <? stop then (stop - start - 1) / step + 1 else 0
  else
    if stop <? start then (start - stop - 1) / (- step) + 1 else 0.

(** [range(start, stop, step)] *)
Definition range (start stop step : Z) : result (list Z) :=
  if step =? 0 then Raise (ValueError "range() arg 3 must not be zero")
  else Ok (map (fun k => start + Z.of_nat k * step)
               (seq 0 (Z.to_nat (range_len start stop step)))).

Open Scope string_scope.

Definition digits (n : N) : string := NilZero.string_of_uint (N.to_uint n).

Fixpoint zeros (n : nat) : string :=
  match n with
  | O => EmptyString
  | S n' => String "0" (zeros n')
  end.

Definition zfill (width : nat) (s : string) : string :=
  zeros (width - String.length s) ++ s.

(** [f'{k:05}'] for an int [k]: the sign counts towards the width. *)
Definition format_05 (k : Z) : string :=
  if (k <? 0)%Z then "-" ++ zfill 4 (digits (Z.abs_N k))
  else zfill 5 (digits (Z.abs_N k)).

(** [f'out_{k:05}.png'] *)
Definition out_name (k : Z) : string := "out_" ++ format_05 k ++ ".png".

End PyInt.

(** ** Traces: the calls that leave the process, in order

    A computation yields the events it emitted and either a value or the
    exception that ended it.  The collaborators are taken to succeed: the
    exceptions are those the code of this file provokes. *)

Definition io (E A : Type) : Type := (list E * result A)%type.

Definition io_ret {E A : Type} (a : A) : io E A := ([], Ok a).

Definition io_emit {E : Type} (e : E) : io E unit := ([e], Ok tt).

Definition io_lift {E A : Type} (r : result A) : io E A := ([], r).

Definition io_bind {E A C : Type} (m : io E A) (k : A -> io E C) : io E C :=
  match snd m with
  | Ok a => (fst m ++ fst (k a), snd (k a))
  | Raise e => (fst m, Raise e)
  end.

Notation "x <~ m ;; k" := (io_bind m (fun x => k))
  (at level 61, m at next level, right associativity).

Fixpoint io_map {E A C : Type} (f : A -> io E C) (l : list A)
  : io E (list C) :=
  match l with
  | [] => io_ret []
  | a :: l' =>
      b <~ f a ;;
      bs <~ io_map f l' ;;
      io_ret (b :: bs)
  end.

(** ** The sampling control loop, the batch driver and [main] *)

Module Program.

Open Scope string_scope.

(** The namespace argparse returns.  [--checkpoint], [--init],
    [--target_img] and [--target_img_w] have no default, so they are
    [None] when the flag is absent. *)
Record args : Type := {
  prompt : string;
  batch_size : Z;
  checkpoint : option string;
  arg_clip_guidance_scale : R;
  eta : R;
  init : option string;
  model_name : string;
  n : Z;
  seed : Z;
  starting_timestep : R;
  steps : Z;
  target_img : Prompt.pyarg;
  target_img_w : option R
}.

(** Truth value of a [str]-or-[None] argument. *)
Definition truthy (o : option string) : bool :=
  match o with
  | Some s => negb (String.eqb s "")
  | None => false
  end.

(** [x != ""] for a [str]-or-[None] argument: [None] differs from the
    empty string. *)
Definition ne_empty (x : Prompt.pyarg) : bool :=
  match x with
  | Prompt.PyNone => true
  | Prompt.PyString s => negb (String.eqb s "")
  end.

(** The values [i, i + step, ...], [m] of them. *)
Definition indices_from (step i : Z) (m : nat) : list Z :=
  map (fun j => i + Z.of_nat j * step)%Z (seq 0 m).

(** [jnp.linspace(a, b, num)] *)
Definition linspace (a b : R) (num : nat) : list R :=
  match num with
  | 0%nat => []
  | 1%nat => [a]
  | _ => map (fun k => a + (b - a) * INR k / INR (num - 1))%R (seq 0 num)
  end.

Definition Rltb (x y : R) : bool := if Rlt_dec x y then true else false.

Section WithBackend.

Variable B : Backend.

Inductive event : Type :=
| EvGetModel (name : string)
| EvLoadParams (path : string)
| EvLoadClip (name : string)
| EvTextEmbed (text : string)
| EvOpenInit (path : string)
| EvOpenTarget (path : string)
| EvRun (k : key B) (n : Z)
| EvSave (file : string) (img : tensor B).

(** The events of sampling, as opposed to those of loading. *)
Definition is_sampling (e : event) : bool :=
  match e with
  | EvRun _ _ | EvSave _ _ => true
  | _ => false
  end.

(** The requests made to the control loop, in order. *)
Definition requests (tr : list event) : list (key B * Z) :=
  flat_map (fun e => match e with EvRun k n => [(k, n)] | _ => [] end) tr.

(** The names of the files written, in order. *)
Definition saved_files (tr : list event) : list string :=
  flat_map (fun e => match e with EvSave f _ => [f] | _ => [] end) tr.

(** The states obtained by splitting [k] again and again, keeping the
    first half each time. *)
Fixpoint fresh_keys (k : key B) (m : nat) : list (key B) :=
  match m with
  | O => []
  | S m' => let k' := fst (split B k) in k' :: fresh_keys k' m'
  end.

Definition weight_val (w : Prompt.weight) : R :=
  match w with
  | Prompt.WInt z => IZR z
  | Prompt.WFloat f => float_val B f
  end.

(** What [run] and [run_all] close over. *)
Record closure : Type := {
  a : args;
  guidance : Guidance.closure B;
  the_params : params B;
  the_clip_params : clip_params B;
  init_image : option (tensor B)     (* bound when [args.init] is truthy *)
}.

Variable c : closure.

Definition the_model : model B := Guidance.the_model (guidance c).

Definition cond_fn (x : tensor B) (k : key B) (t : R) (ea : extra_args B)
  : result (tensor B) :=
  Guidance.clip_cond_fn (guidance c) x k t ea
                        (the_params c) (the_clip_params c).

(** Line 178 *)
Definition schedule : list R :=
  get_ddpm_schedule B
    (removelast (linspace 1 0 (Z.to_nat (steps (a c) + 1)))).

(** Line 180 *)
Definition truncate (sched : list R) : list R :=
  filter (fun s => Rltb s (starting_timestep (a c))) sched.

(** Lines 170-182 of [run]: the key, the latent and the schedule that
    are handed to the sampler. *)
Definition run_setup (k : key B) (n : Z)
  : result (key B * tensor B * list R) :=
  if (n <? 0)%Z then Raise (ExternalError "negative dimension")
  else if (steps (a c) + 1 <? 0)%Z
  then Raise (ExternalError "negative number of samples")
  else
    let '(k1, subkey) := split B k in
    let noise := normal B subkey (Z.to_nat n :: model_shape B the_model) in
    let '(k2, subkey2) := split B k1 in
    match init_image c with
    | Some init =>
        let sched := truncate schedule in
        match sched with
        | [] => Raise (IndexError "index is out of bounds for axis 0 with size 0")
        | t0 :: _ =>
            let '(alpha, sigma) := t_to_alpha_sigma B t0 in
            Ok (subkey2,
                tadd B (tmul_s B init alpha) (tmul_s B noise sigma),
                sched)
        end
    | None => Ok (subkey2, noise, schedule)
    end.

Definition run (k : key B) (n : Z) : result (tensor B) :=
  s <- run_setup k n ;;
  Ok (sample_loop B the_model (the_params c) (fst (fst s)) (snd (fst s))
                  (snd s) (eta (a c)) cond_fn).

(** [enumerate] *)
Definition enumerate {A : Type} (l : list A) : list (nat * A) :=
  combine (seq 0 (length l)) l.

(** Lines 190-191 *)
Definition save_all (i : Z) (outs : tensor B) : list event :=
  map (fun jo => EvSave (PyInt.out_name (i + Z.of_nat (fst jo))) (snd jo))
      (enumerate (unstack B outs)).

(** The [for] loop of [run_all] over the values of [trange], for any
    control loop [run_fn]. *)
Fixpoint run_all_loop (run_fn : key B -> Z -> result (tensor B))
         (n batch_size : Z) (idxs : list Z) (k : key B) : io event unit :=
  match idxs with
  | [] => io_ret tt
  | i :: rest =>
      let '(k', subkey) := split B k in
      let cur_batch_size := Z.min (n - i) batch_size in
      _ <~ io_emit (EvRun k' cur_batch_size) ;;
      outs <~ io_lift (run_fn k' cur_batch_size) ;;
      _ <~ (save_all i outs, Ok tt) ;;
      run_all_loop run_fn n batch_size rest k'
  end.

(** The contract [run_all] relies on: asked for [m >= 1] samples, the
    control loop returns a batch of [m] images. *)
Definition returns_batches (run_fn : key B -> Z -> result (tensor B))
  : Prop :=
  forall (k : key B) (m : Z),
    (1 <= m)%Z ->
    exists outs, run_fn k m = Ok outs
                 /\ length (unstack B outs) = Z.to_nat m.

Definition run_all_with (run_fn : key B -> Z -> result (tensor B))
           (k : key B) (n batch_size : Z) : io event unit :=
  idxs <~ io_lift (PyInt.range 0 n batch_size) ;;
  run_all_loop run_fn n batch_size idxs k.

Definition run_all (k : key B) (n batch_size : Z) : io event unit :=
  run_all_with run k n batch_size.

End WithBackend.

Section Main.

Variable B : Backend.

Definition clip_mean : list R :=
  [48145466 / 100000000; 4578275 / 10000000; 40821073 / 100000000]%R.

Definition clip_std : list R :=
  [26862954 / 100000000; 26130258 / 100000000; 27577711 / 100000000]%R.

(** Lines 120-123 *)
Definition text_targets (cp : clip_params B) (prompt : string)
  : io (event B) (list (list R) * list Prompt.weight) :=
  if String.eqb prompt "" then io_ret ([], [])
  else
    pw <~ io_lift (Prompt.parse_prompts (Prompt.PyString prompt)) ;;
    embeds <~ io_map (fun p => _ <~ io_emit (EvTextEmbed B p) ;;
                               io_ret (text_fn B cp p)) (fst pw) ;;
    io_ret (embeds, snd pw).

(** Lines 125-128 *)
Definition load_init (m : model B) (init : option string)
  : io (event B) (option (tensor B)) :=
  match init with
  | Some path =>
      if String.eqb path "" then io_ret None
      else
        match model_shape B m with
        | [_; y; x] =>
            _ <~ io_emit (EvOpenInit B path) ;;
            io_ret (Some (open_init B path (x, y)))
        | _ => io_lift (Raise (ValueError "wrong number of values to unpack"))
        end
  | None => io_ret None
  end.

(** Lines 132-140; an image target is the single row [image_fn]
    returns for a batch of one. *)
Definition image_targets (cp : clip_params B) (target_img : Prompt.pyarg)
  : io (event B) (list (list R) * list Prompt.weight) :=
  if ne_empty target_img then
    pw <~ io_lift (Prompt.parse_prompts target_img) ;;
    embeds <~ io_map (fun p => _ <~ io_emit (EvOpenTarget B p) ;;
                               io_ret (hd [] (image_fn B cp (open_target B p))))
                     (fst pw) ;;
    io_ret (embeds, snd pw)
  else io_ret ([], []).

(** Lines 106-108: [MODULE_DIR] is the directory paths are relative to. *)
Definition checkpoint_path (ar : args) : string :=
  match checkpoint ar with
  | Some s => if String.eqb s ""
              then "checkpoints/" ++ model_name ar ++ ".pkl"
              else s
  | None => "checkpoints/" ++ model_name ar ++ ".pkl"
  end.

(** [main], up to the call of [run_all]: the closure it builds and the
    key it starts from. *)
Definition setup (ar : args) : io (event B) (closure B * key B) :=
  _ <~ io_emit (EvGetModel B (model_name ar)) ;;
  let m := get_model B (model_name ar) in
  let ckpt := checkpoint_path ar in
  _ <~ io_emit (EvLoadParams B ckpt) ;;
  let ps := load_params B ckpt in
  _ <~ io_emit (EvLoadClip B "ViT-B/16") ;;
  let cp := clip_load B "ViT-B/16" in
  let clip_patch_size := 16%nat in
  let clip_size := 224%nat in
  let normalize := Guidance.make_normalize B clip_mean clip_std in
  txt <~ text_targets cp (prompt ar) ;;
  ini <~ load_init m (init ar) ;;
  let k := PRNGKey B (seed ar) in
  img <~ image_targets cp (target_img ar) ;;
  io_ret
    ({| a := ar;
        guidance :=
          {| Guidance.the_model := m;
             Guidance.clip_size := clip_size;
             Guidance.clip_patch_size := clip_patch_size;
             Guidance.normalize := normalize;
             Guidance.target_embeds := fst txt;
             Guidance.target_w := map (weight_val B) (snd txt);
             Guidance.target_img_embeds := fst img;
             Guidance.target_img_w := map (weight_val B) (snd img);
             Guidance.clip_guidance_scale := arg_clip_guidance_scale ar |};
        the_params := ps;
        the_clip_params := cp;
        init_image := ini |}, k).

(** The [try ... except KeyboardInterrupt] around [run_all] has no
    counterpart: no interrupt arrives in a trace. *)
Definition main (ar : args) : io (event B) unit :=
  ck <~ setup ar ;;
  run_all (fst ck) (snd ck) (n ar) (batch_size ar).

End Main.

End Program.

(** ** A backend that tracks shapes only

    Every tensor is represented by its shape, every operation by the shape
    it returns.  It is the instance at which the results below are
    exercised on concrete inputs. *)

Module ShapeOnly.

Definition broadcast (s1 s2 : shape_t) : shape_t :=
  if (length s1 <? length s2)%nat then s2
  else if (length s2 <? length s1)%nat then s1
  else map (fun p => Nat.max (fst p) (snd p)) (combine s1 s2).

Definition pad (s : shape_t) (pads : list (nat * nat)) : shape_t :=
  map (fun dp => fst (snd dp) + fst dp + snd (snd dp))%nat (combine s pads).

Definition slices (s : shape_t) : list shape_t :=
  match s with
  | n :: s' => repeat s' n
  | [] => []
  end.

Definition stacked (l : list shape_t) : shape_t :=
  match l with
  | s :: l' => S (length l') :: s
  | [] => [0%nat]
  end.

Definition crop_shape (ish sh : shape_t) (dims : list nat) : shape_t :=
  map (fun i => if existsb (Nat.eqb i) dims then nth i sh 0%nat
                else nth i ish 0%nat)
      (seq 0 (length sh)).

Definition decimal_val (f : PyFloat.t) : R :=
  match f with
  | PyFloat.Finite neg m e =>
      ((if neg then -1 else 1) * IZR (Z.of_N m) * powerRZ 10 e)%R
  | _ => 0%R
  end.

Lemma slices_spec (s : shape_t) (n : nat) (s' : shape_t) :
  s = n :: s' ->
  length (slices s) = n /\ Forall (fun xi => xi = s') (slices s).
Proof.
  intros ->; simpl; split.
  - apply repeat_length.
  - apply Forall_forall; intros y Hy; apply (repeat_spec _ _ _ Hy).
Defined.

Lemma crop_ndim (ish sh : shape_t) (dims : list nat) :
  length sh = length ish -> length (crop_shape ish sh dims) = length sh.
Proof.
  intros _; unfold crop_shape; now rewrite length_map, length_seq.
Defined.

Lemma crop_spatial (ish sh : shape_t) (dims : list nat) (d : nat) :
  length sh = length ish -> In d dims ->
  nth d (crop_shape ish sh dims) 0%nat = nth d sh 0%nat.
Proof.
  intros _ Hd; unfold crop_shape.
  set (f := fun i => if existsb (Nat.eqb i) dims then nth i sh 0%nat
                     else nth i ish 0%nat).
  destruct (Nat.lt_ge_cases d (length sh)) as [Hlt | Hge].
  - rewrite (nth_indep _ 0%nat (f 0%nat))
      by now rewrite length_map, length_seq.
    rewrite (map_nth f), seq_nth by assumption; simpl.
    assert (He : existsb (Nat.eqb d) dims = true).
    { apply existsb_exists; exists d; split;
        [assumption | apply Nat.eqb_refl]. }
    unfold f; now rewrite He.
  - rewrite !nth_overflow; [reflexivity | assumption | ].
    now rewrite length_map, length_seq.
Defined.

Definition backend : Backend :=
  {| tensor := shape_t;
     key := nat;
     model := unit;
     params := unit;
     clip_params := unit;
     extra_args := unit;
     shape := fun s => s;
     float_val := decimal_val;
     tmul := broadcast;
     tadd := broadcast;
     tsub := broadcast;
     tdiv := broadcast;
     tmul_s := fun s _ => s;
     tadd_s := fun s _ => s;
     tdiv_s := fun s _ => s;
     array := fun l => [length l];
     reshape := fun _ s => s;
     ones := fun s => s;
     full := fun s _ => s;
     pad_edge := pad;
     unstack := slices;
     stack := stacked;
     PRNGKey := Z.to_nat;
     split := fun k => (2 * k + 1, 2 * k + 2)%nat;
     normal := fun _ s => s;
     uniform := fun _ s _ _ => s;
     image_resize := fun _ s => s;
     scale_and_translate := fun img sh dims _ _ => crop_shape img sh dims;
     sat_out_shape := crop_shape;
     grad := fun _ s => s;
     get_model := fun _ => tt;
     model_shape := fun _ => [3; 4; 4]%nat;
     model_apply := fun _ _ _ x _ _ => x;
     load_params := fun _ => tt;
     no_extra_args := tt;
     t_to_alpha_sigma := fun t => (cos (t * PI / 2), sin (t * PI / 2))%R;
     get_ddpm_schedule := fun l => l;
     sample_loop := fun _ _ _ x _ _ _ => x;
     clip_load := fun _ => tt;
     text_fn := fun _ _ => [1; 0]%R;
     image_fn := fun _ s => repeat [1; 0]%R (hd 0%nat s);
     open_target := fun _ => [1; 3; 224; 224]%nat;
     open_init := fun _ xy => [1; 3; snd xy; fst xy]%nat;
     shape_image_resize := fun _ _ => eq_refl;
     shape_pad_edge := fun _ _ _ => eq_refl;
     shape_ones := fun _ => eq_refl;
     shape_uniform := fun _ _ _ _ => eq_refl;
     shape_normal := fun _ _ => eq_refl;
     shape_unstack := slices_spec;
     shape_stack := fun _ _ _ => eq_refl;
     shape_scale_and_translate := fun _ _ _ _ _ => eq_refl;
     sat_out_ndim := crop_ndim;
     sat_out_spatial := crop_spatial;
     shape_grad := fun _ _ => eq_refl;
     shape_tmul_s := fun _ _ => eq_refl;
     shape_sample_loop := fun _ _ _ _ _ _ _ => eq_refl |}.

(** The closure [main] builds for ViT-B/16, with the given target sets. *)
Definition guidance_closure (te : list (list R)) (tw : list R)
           (tie : list (list R)) (tiw : list R) : Guidance.closure backend :=
  @Guidance.Build_closure backend
    tt 224 16
    (Guidance.make_normalize backend Program.clip_mean Program.clip_std)
    te tw tie tiw 1000.

Definition demo_args (prompt : string) (init : option string)
           (target_img : Prompt.pyarg) (n batch_size steps : Z)
  : Program.args :=
  {| Program.prompt := prompt;
     Program.batch_size := batch_size;
     Program.checkpoint := None;
     Program.arg_clip_guidance_scale := 1000;
     Program.eta := 1;
     Program.init := init;
     Program.model_name := "cc12m_1";
     Program.n := n;
     Program.seed := 0;
     Program.starting_timestep := 9 / 10;
     Program.steps := steps;
     Program.target_img := target_img;
     Program.target_img_w := None |}.

Definition program_closure (ar : Program.args) (init : option shape_t)
  : Program.closure backend :=
  @Program.Build_closure backend ar
    (guidance_closure [[1; 0]%R] [1%R] [] []) tt tt init.

End ShapeOnly.

(** ** The total loss in the spec's words

    "total loss = sum over text targets of weight x (scorer summed over
    the batch) + sum over image targets of the same, using the same
    produced image embeddings against each target embedding".  A target
    set is the sequence of (embedding, weight) pairs. *)

Module SpecWords.

Open Scope R_scope.

Definition weighted_sum (embeds : list (list R)) (targets : list (list R * R))
  : R :=
  Scorer.sum
    (map (fun ew =>
            snd ew * Scorer.sum (Scorer.spherical_dist_loss embeds (fst ew)))
         targets).

Definition total_loss (embeds : list (list R))
           (text_targets image_targets : list (list R * R)) : R :=
  weighted_sum embeds text_targets + weighted_sum embeds image_targets.

(** "repeatedly requests min(B, N - produced) samples until N have been
    produced": the sizes requested, [fuel] bounding the number of
    requests. *)
Fixpoint batch_plan (fuel : nat) (N Bsz produced : Z) : list Z :=
  match fuel with
  | O => []
  | S fuel' =>
      if (produced <? N)%Z
      then let b := Z.min Bsz (N - produced) in
           b :: batch_plan fuel' N Bsz (produced + b)
      else []
  end.

(** The file names [out_00000.png], [out_00001.png], ... for the indices
    [0] to [N-1]. *)
Definition file_names (N : Z) : list string :=
  map (fun i => PyInt.out_name (Z.of_nat i)) (seq 0 (Z.to_nat N)).

End SpecWords.

(** ** More of Python's string operations, used to state what the parser
    does *)

Module Text.

Open Scope string_scope.

(** [sep.join(l)] for a one-character separator *)
Fixpoint join (sep : ascii) (l : list string) : string :=
  match l with
  | [] => EmptyString
  | [s] => s
  | s :: l' => s ++ String sep (join sep l')
  end.

(** [s.count(c)] *)
Fixpoint count (c : ascii) (s : string) : nat :=
  match s with
  | EmptyString => 0
  | String d s' => (if Ascii.eqb d c then 1 else 0) + count c s'
  end.

(** [s.startswith(c)] *)
Definition starts_with (c : ascii) (s : string) : bool :=
  match s with
  | String d _ => Ascii.eqb d c
  | EmptyString => false
  end.

(** [s.endswith(c)] *)
Fixpoint ends_with (c : ascii) (s : string) : bool :=
  match s with
  | EmptyString => false
  | String d EmptyString => Ascii.eqb d c
  | String _ s' => ends_with c s'
  end.


End Text.

(** ** Closures that differ in their target sets only *)

Module Targets.

Definition with_targets (B : Backend) (c : Guidance.closure B)
           (te : list (list R)) (tw : list R)
           (tie : list (list R)) (tiw : list R) : Guidance.closure B :=
  {| Guidance.the_model := Guidance.the_model c;
     Guidance.clip_size := Guidance.clip_size c;
     Guidance.clip_patch_size := Guidance.clip_patch_size c;
     Guidance.normalize := Guidance.normalize c;
     Guidance.target_embeds := te;
     Guidance.target_w := tw;
     Guidance.target_img_embeds := tie;
     Guidance.target_img_w := tiw;
     Guidance.clip_guidance_scale := Guidance.clip_guidance_scale c |}.

End Targets.

(** ** The timesteps the schedule is built from *)

Module Schedule.

(** [jnp.linspace(1, 0, steps + 1)[:-1]], the argument of
    [get_ddpm_schedule] on line 178. *)
Definition timesteps (steps : Z) : list R :=
  removelast (Program.linspace 1 0 (Z.to_nat (steps + 1))).

End Schedule.

(** ** Reading an index back *)

Module Names.

(** [int(s)] for a string of ASCII digits, leading zeros allowed; [None]
    stands for the ValueError on any other character. *)
Definition read_digits (s : string) : option N :=
  option_map N.of_uint (NilEmpty.uint_of_string s).

End Names.

(** ** [resize_image]

    Sizes are counts of pixels, (width, height); the float arithmetic is
    idealised as real arithmetic. *)

Module Resize.

Open Scope R_scope.

(** [round(x)] for a float: the nearest integer, a tie going to the even
    one. *)
Definition py_round (x : R) : Z :=
  let n := Int_part x in
  if Rlt_dec (frac_part x) (1 / 2) then n
  else if Rlt_dec (1 / 2) (frac_part x) then (n + 1)%Z
  else if Z.even n then n else (n + 1)%Z.

(** The size [resize_image] asks [image.resize] for, which is the size of
    the image it returns; [None] stands for the ZeroDivisionError of
    [size[0] / size[1]] on a height of 0 and of [area / ratio] on a width
    of 0. *)
Definition resize_image (size out_size : nat * nat) : option (Z * Z) :=
  if (snd size =? 0)%nat then None
  else
    let ratio := INR (fst size) / INR (snd size) in
    let area := Nat.min (fst size * snd size) (fst out_size * snd out_size) in
    if (fst size =? 0)%nat then None
    else Some (py_round (sqrt (INR area * ratio)),
               py_round (sqrt (INR area / ratio))).

End Resize.

(** * Results *)

(** ** The prompt parser *)

Section PromptFacts.

Import Prompt.
Open Scope string_scope.

Lemma split_nonempty (sep : ascii) (s : string) : PyStr.split sep s <> [].
Proof.
  destruct s as [| ch s]; simpl; [discriminate |].
  destruct (Ascii.eqb ch sep); [discriminate |].
  destruct (PyStr.split sep s); discriminate.
Qed.

(** [splt == [prompts]] holds exactly when there is no delimiter. *)
Lemma split_self_iff (sep : ascii) (s : string) :
  PyStr.split sep s = [s] <-> PyStr.contains sep s = false.
Proof.
  induction s as [| ch s IH]; simpl.
  - split; reflexivity.
  - destruct (Ascii.eqb ch sep) eqn:E; simpl.
    + split; [| discriminate].
      intros H; injection H as H _; discriminate.
    + destruct (PyStr.split sep s) as [| h t] eqn:Es.
      * now apply split_nonempty in Es.
      * rewrite <- IH; split; intros H.
        -- injection H as -> ->; reflexivity.
        -- injection H as -> ->; reflexivity.
Qed.

Lemma parse_prompts_undelimited (s : string) :
  PyStr.contains "|" s = false ->
  parse_prompts (PyString s) = Ok ([s], [WInt 1]).
Proof.
  intros H; apply split_self_iff in H; unfold parse_prompts.
  destruct (list_eq_dec string_dec (PyStr.split "|" s) [s]);
    [reflexivity | contradiction].
Qed.

Lemma parse_prompts_delimited (s : string) :
  PyStr.contains "|" s = true ->
  parse_prompts (PyString s) = parse_segments (PyStr.split "|" s) [] [].
Proof.
  intros H; unfold parse_prompts.
  destruct (list_eq_dec string_dec (PyStr.split "|" s) [s]) as [E |];
    [| reflexivity].
  apply split_self_iff in E; congruence.
Qed.

(** The loop stops at the first segment whose iteration raises. *)
Lemma parse_segments_raise (pre post : list string) (seg : string)
      (e : exn) :
  Forall (fun x => is_ok (parse_segment x) = true) pre ->
  parse_segment seg = Raise e ->
  forall tp tw, parse_segments (pre ++ seg :: post) tp tw = Raise e.
Proof.
  intros Hpre Hseg; induction Hpre as [| x pre Hx _ IH]; intros tp tw; simpl.
  - now rewrite Hseg.
  - destruct (parse_segment x); [apply IH | discriminate].
Qed.

Lemma parse_segments_some_raise (splt : list string) :
  Exists (fun x => is_ok (parse_segment x) = false) splt ->
  forall tp tw, is_ok (parse_segments splt tp tw) = false.
Proof.
  induction 1 as [x l Hx | x l _ IH]; intros tp tw; simpl.
  - destruct (parse_segment x); [discriminate | reflexivity].
  - destruct (parse_segment x); [apply IH | reflexivity].
Qed.

(** A segment that does not split on ':' into exactly two parts: [p] is
    bound to the list of parts, and [p.lstrip] raises. *)
Lemma parse_segment_not_two (seg : string) :
  length (PyStr.split ":" seg) <> 2%nat ->
  parse_segment seg = Raise (AttributeError "list" "lstrip").
Proof.
  intros H; unfold parse_segment, split_segment.
  destruct (PyStr.split ":" seg) as [| p [| w [| z l]]]; try reflexivity.
  now elim H.
Qed.

Lemma parse_segment_bad_weight (seg p w : string) :
  PyStr.split ":" seg = [p; w] ->
  PyFloat.of_string w = None ->
  parse_segment seg
  = Raise (ValueError ("could not convert string to float: " ++ w)).
Proof.
  intros Hs Hw; unfold parse_segment, split_segment; rewrite Hs; simpl.
  now rewrite Hw.
Qed.


(** In a delimited prompt, any segment without exactly one ':' makes the
    parser raise: no such segment ever gets the default weight. *)
Lemma parse_prompts_unweighted_segment (s : string) :
  PyStr.contains "|" s = true ->
  Exists (fun seg => length (PyStr.split ":" seg) <> 2%nat)
         (PyStr.split "|" s) ->
  is_ok (parse_prompts (PyString s)) = false.
Proof.
  intros Hc Hex; rewrite (parse_prompts_delimited _ Hc).
  apply parse_segments_some_raise.
  eapply Exists_impl; [| exact Hex].
  intros seg Hseg; simpl in Hseg.
  now rewrite (parse_segment_not_two _ Hseg).
Qed.

(** C3: on the spec's own example of unweighted delimited prompts,
    "a cat | a dog", the parser does not return (["a cat","a dog"],
    [1.0, 1.0]): the first segment has no ':', so [p] is the list of its
    parts and stripping it raises AttributeError. *)
Theorem parse_prompts_a_cat_a_dog :
  parse_prompts (PyString "a cat | a dog")
  = Raise (AttributeError "list" "lstrip").
Proof. reflexivity. Qed.

End PromptFacts.

(** ** The spherical distance scorer *)

Section ScorerFacts.

Import Scorer.
Open Scope R_scope.

Lemma sum_square_nonneg (x : vec) : 0 <= sum (square x).
Proof.
  induction x as [| a x IH]; simpl; [lra |].
  pose proof (Rle_0_sqr a) as Ha; unfold Rsqr in Ha; lra.
Qed.

Lemma sum_square_pos (x : vec) : nonzero x -> 0 < sum (square x).
Proof.
  induction 1 as [a x Ha | a x _ IH]; simpl.
  - pose proof (sum_square_nonneg x).
    assert (0 < a * a) by (apply Rsqr_pos_lt in Ha; exact Ha).
    lra.
  - pose proof (Rle_0_sqr a) as Ha; unfold Rsqr in Ha; lra.
Qed.

Lemma norm_pos (x : vec) : nonzero x -> 0 < sqrt (sum (square x)).
Proof. intros H; apply sqrt_lt_R0, sum_square_pos, H. Qed.

Lemma sum_vmul_self (x : vec) : sum (vmul x x) = sum (square x).
Proof.
  unfold vmul; induction x as [| a x IH]; simpl; [reflexivity |].
  now rewrite IH.
Qed.

(** Dividing both operands by constants divides the dot product. *)
Lemma sum_vmul_div (n m : R) (x y : vec) :
  n <> 0 -> m <> 0 ->
  sum (vmul (map (fun a => a / n) x) (map (fun b => b / m) y))
  = sum (vmul x y) / (n * m).
Proof.
  intros Hn Hm; unfold vmul; revert y.
  induction x as [| a x IH]; intros [| b y]; simpl;
    try (unfold Rdiv; now rewrite Rmult_0_l).
  rewrite IH; field; split; assumption.
Qed.

Lemma dot_norm2 (x y : vec) :
  nonzero x -> nonzero y ->
  sum (vmul (norm2 x) (norm2 y))
  = sum (vmul x y) / (sqrt (sum (square x)) * sqrt (sum (square y))).
Proof.
  intros Hx Hy; unfold norm2; apply sum_vmul_div.
  - pose proof (norm_pos Hx); lra.
  - pose proof (norm_pos Hy); lra.
Qed.





Lemma nonzero_scale (a : R) (x : vec) :
  0 < a -> nonzero x -> nonzero (scale a x).
Proof.
  intros Ha; unfold nonzero, scale; induction 1 as [b x Hb | b x _ IH]; simpl.
  - apply Exists_cons_hd; nra.
  - now apply Exists_cons_tl.
Qed.


Lemma sum_square_norm2 (x : vec) : nonzero x -> sum (square (norm2 x)) = 1.
Proof.
  intros Hx; rewrite <- sum_vmul_self, (dot_norm2 Hx Hx), sum_vmul_self.
  pose proof (norm_pos Hx) as Hn.
  rewrite sqrt_sqrt by apply sum_square_nonneg.
  pose proof (sum_square_pos Hx); field; lra.
Qed.











End ScorerFacts.

(** ** The augmentation pipeline and the guidance gradient *)

Section GuidanceFacts.

Import Guidance.

Variable B : Backend.
Variable c : closure B.







(** The accumulation of both loops adds up the weighted terms. *)
Lemma fold_add_term_val (e : list (list R)) (l : list (list R * R))
      (acc : pynum) :
  num_val (fold_left (add_term e) l acc)
  = (num_val acc + SpecWords.weighted_sum e l)%R.
Proof.
  assert (Hcons : forall ew l',
             SpecWords.weighted_sum e (ew :: l')
             = (snd ew * Scorer.sum (Scorer.spherical_dist_loss e (fst ew))
                + SpecWords.weighted_sum e l')%R) by reflexivity.
  assert (Hnil : SpecWords.weighted_sum e [] = 0%R) by reflexivity.
  revert acc; induction l as [| ew l IH]; intros acc; simpl fold_left.
  - rewrite Hnil; ring.
  - rewrite IH, Hcons; unfold add_term; simpl num_val; ring.
Qed.

(** After one term the accumulator is a floating-point scalar. *)
Lemma fold_add_term_float (e : list (list R)) (l : list (list R * R))
      (acc : pynum) :
  l <> [] -> exists r, fold_left (add_term e) l acc = JaxScalar r.
Proof.
  intros Hl; destruct l as [| ew l]; [now elim Hl |].
  simpl fold_left; unfold add_term at 2.
  generalize (num_val acc
              + Scorer.sum (Scorer.spherical_dist_loss e (fst ew)) * snd ew)%R.
  clear; induction l as [| ew' l IH]; intros r; simpl fold_left.
  - now exists r.
  - unfold add_term at 2; apply IH.
Qed.

Lemma clip_cond_fn_loss_fold (x : tensor B) (k : key B) (p : params B)
      (cp : clip_params B) (t : R) (ea : extra_args B) :
  clip_cond_fn_loss c x k p cp t ea
  = fold_left (add_term (image_embeds c x k p cp t ea))
              (combine (target_embeds c) (target_w c)
               ++ combine (target_img_embeds c) (target_img_w c))
              (PyInt 0).
Proof. unfold clip_cond_fn_loss; now rewrite fold_left_app. Qed.

Lemma clip_cond_fn_loss_val (x : tensor B) (k : key B) (p : params B)
      (cp : clip_params B) (t : R) (ea : extra_args B) :
  num_val (clip_cond_fn_loss c x k p cp t ea)
  = SpecWords.total_loss (image_embeds c x k p cp t ea)
      (combine (target_embeds c) (target_w c))
      (combine (target_img_embeds c) (target_img_w c)).
Proof.
  unfold clip_cond_fn_loss, SpecWords.total_loss.
  rewrite !fold_add_term_val; simpl; ring.
Qed.

(** The embeddings the loss is computed from: denoise at (x, t), form
    [x*alpha - v*sigma], augment, rescale to [0, 1], normalise, encode. *)
Lemma image_embeds_unfold (x : tensor B) (k : key B) (p : params B)
      (cp : clip_params B) (t : R) (ea : extra_args B) :
  let v := model_apply B (the_model c) p (PRNGKey B 0) x
                       (full B [hd 0%nat (shape B x)] t) ea in
  let alpha := fst (t_to_alpha_sigma B t) in
  let sigma := snd (t_to_alpha_sigma B t) in
  let pred := tsub B (tmul_s B x alpha) (tmul_s B v sigma) in
  image_embeds c x k p cp t ea
  = image_fn B cp
      (normalize c (tdiv_s B (tadd_s B (augment c k pred) 1) 2)).
Proof.
  unfold image_embeds, predict; simpl.
  now destruct (t_to_alpha_sigma B t).
Qed.

(** With at least one target the function returns the negated,
    guidance-scaled gradient of the total loss, a tensor shaped like [x]. *)
Lemma clip_cond_fn_some_target (x : tensor B) (k : key B) (t : R)
      (ea : extra_args B) (p : params B) (cp : clip_params B) :
  combine (target_embeds c) (target_w c)
  ++ combine (target_img_embeds c) (target_img_w c) <> [] ->
  let L := fun x' => num_val (clip_cond_fn_loss c x' k p cp t ea) in
  clip_cond_fn c x k t ea p cp
  = Ok (tmul_s B (grad B L x) (- clip_guidance_scale c))
  /\ shape B (tmul_s B (grad B L x) (- clip_guidance_scale c)) = shape B x.
Proof.
  intros Hne L; split.
  - unfold clip_cond_fn, jax_grad; rewrite clip_cond_fn_loss_fold.
    destruct (fold_add_term_float (image_embeds c x k p cp t ea) (PyInt 0) Hne)
      as [r ->].
    reflexivity.
  - now rewrite shape_tmul_s, shape_grad.
Qed.

(** With no target at all the loss is the integer 0 the accumulation
    starts from, which differentiation rejects. *)
Lemma clip_cond_fn_no_target (x : tensor B) (k : key B) (t : R)
      (ea : extra_args B) (p : params B) (cp : clip_params B) :
  combine (target_embeds c) (target_w c)
  ++ combine (target_img_embeds c) (target_img_w c) = [] ->
  clip_cond_fn_loss c x k p cp t ea = PyInt 0
  /\ clip_cond_fn c x k t ea p cp = Raise (TypeError grad_int_output).
Proof.
  intros Hnil.
  assert (H0 : forall x', clip_cond_fn_loss c x' k p cp t ea = PyInt 0)
    by (intros x'; now rewrite clip_cond_fn_loss_fold, Hnil).
  split; [apply H0 |].
  unfold clip_cond_fn, jax_grad; now rewrite H0.
Qed.

(** C1: the function computes the negated, guidance-scaled reverse-mode
    gradient of the total loss, where the total loss at a latent is the sum
    over the text targets and the image targets of weight times the scorer
    summed over the batch, on the embeddings of the augmented prediction
    [x*alpha - v*sigma]; the result has the shape of [x].  This holds as
    soon as there is one target.  With no target the accumulated loss is
    still the integer 0, and instead of a tensor the call raises
    TypeError. *)
Theorem clip_cond_fn_gradient_or_raise (x : tensor B) (k : key B) (t : R)
        (ea : extra_args B) (p : params B) (cp : clip_params B) :
  let text := combine (target_embeds c) (target_w c) in
  let img := combine (target_img_embeds c) (target_img_w c) in
  exists L : tensor B -> R,
    (forall x' : tensor B,
        let v := model_apply B (the_model c) p (PRNGKey B 0) x'
                             (full B [hd 0%nat (shape B x')] t) ea in
        let alpha := fst (t_to_alpha_sigma B t) in
        let sigma := snd (t_to_alpha_sigma B t) in
        let pred := tsub B (tmul_s B x' alpha) (tmul_s B v sigma) in
        let embeds :=
          image_fn B cp
            (normalize c (tdiv_s B (tadd_s B (augment c k pred) 1) 2)) in
        L x' = SpecWords.total_loss embeds text img)
    /\ (text ++ img <> [] ->
        clip_cond_fn c x k t ea p cp
        = Ok (tmul_s B (grad B L x) (- clip_guidance_scale c))
        /\ shape B (tmul_s B (grad B L x) (- clip_guidance_scale c))
           = shape B x)
    /\ (text ++ img = [] ->
        clip_cond_fn c x k t ea p cp = Raise (TypeError grad_int_output)).
Proof.
  intros text img.
  exists (fun x' => num_val (clip_cond_fn_loss c x' k p cp t ea)).
  split; [| split].
  - intros x'; cbv zeta.
    rewrite clip_cond_fn_loss_val.
    pose proof (image_embeds_unfold x' k p cp t ea) as He; cbv zeta in He.
    now rewrite He.
  - intros Hne; exact (clip_cond_fn_some_target x k t ea p cp Hne).
  - intros Hnil; exact (proj2 (clip_cond_fn_no_target x k t ea p cp Hnil)).
Qed.

End GuidanceFacts.

(** C2: with both target sets empty the loss function returns the integer
    0 for every latent, and the guidance gradient function does not return
    the zero tensor: differentiating a function with an integer output
    raises TypeError. *)
Theorem clip_cond_fn_empty_targets (B : Backend) (m : model B)
        (size patch : nat) (nz : tensor B -> tensor B) (scale : R)
        (x : tensor B) (k : key B) (t : R) (ea : extra_args B)
        (p : params B) (cp : clip_params B) :
  let c := {| Guidance.the_model := m;
              Guidance.clip_size := size;
              Guidance.clip_patch_size := patch;
              Guidance.normalize := nz;
              Guidance.target_embeds := [];
              Guidance.target_w := [];
              Guidance.target_img_embeds := [];
              Guidance.target_img_w := [];
              Guidance.clip_guidance_scale := scale |} in
  Guidance.clip_cond_fn_loss c x k p cp t ea = Guidance.PyInt 0
  /\ Guidance.clip_cond_fn c x k t ea p cp
     = Raise (TypeError Guidance.grad_int_output).
Proof.
  intros c; apply clip_cond_fn_no_target; reflexivity.
Qed.


(** ** Traces *)

Section TraceFacts.


Lemma io_bind_raise (E A C : Type) (m : io E A) (k : A -> io E C) (e : exn) :
  snd m = Raise e -> io_bind m k = (fst m, Raise e).
Proof. intros H; unfold io_bind; now rewrite H. Qed.

Lemma io_bind_trace (E A C : Type) (P : E -> Prop) (m : io E A) (k : A -> io E C) :
  Forall P (fst m) -> (forall x, Forall P (fst (k x))) ->
  Forall P (fst (io_bind m k)).
Proof.
  intros Hm Hk; unfold io_bind; destruct (snd m) as [x | e]; simpl.
  - apply Forall_app; split; [exact Hm | apply Hk].
  - exact Hm.
Qed.

Lemma io_bind_raise_later (E A C : Type) (m : io E A) (k : A -> io E C) :
  (forall x, exists e, snd (k x) = Raise e) ->
  exists e, snd (io_bind m k) = Raise e.
Proof.
  intros Hk; unfold io_bind; destruct (snd m) as [x | e]; simpl.
  - apply Hk.
  - now exists e.
Qed.

Lemma io_map_trace (E A C : Type) (P : E -> Prop) (f : A -> io E C) (l : list A) :
  (forall x, Forall P (fst (f x))) -> Forall P (fst (io_map f l)).
Proof.
  intros Hf; induction l as [| x l IH]; simpl; [constructor |].
  apply io_bind_trace; [apply Hf | intros y].
  apply io_bind_trace; [exact IH | intros ys; constructor].
Qed.

End TraceFacts.

(** ** The sampling control loop *)

Section ControlLoopFacts.

Import Program.
Open Scope R_scope.

Variable B : Backend.
Variable c : closure B.

Lemma Rltb_true (x y : R) : Rltb x y = true <-> x < y.
Proof.
  unfold Rltb; destruct (Rlt_dec x y); split; intros H;
    try reflexivity; try assumption; try discriminate; contradiction.
Qed.

Lemma truncate_In (sched : list R) (s : R) :
  In s (truncate c sched) <-> In s sched /\ s < starting_timestep (a c).
Proof. unfold truncate; now rewrite filter_In, Rltb_true. Qed.

Lemma truncate_below (sched : list R) :
  Forall (fun s => s < starting_timestep (a c)) (truncate c sched).
Proof.
  apply Forall_forall; intros s Hs; now apply truncate_In in Hs.
Qed.

(** C7: with an initial image, the schedule handed to the sampler is the
    built schedule restricted, in order, to exactly the entries strictly
    below the starting timestep, and the latent handed to it is
    [init*alpha + noise*sigma] with [alpha] and [sigma] taken at the first
    entry of the truncated schedule; every entry iterated is strictly
    below the starting timestep. *)
Theorem run_with_init (k : key B) (n : Z) (init : tensor B) (t0 : R)
        (rest : list R) :
  init_image c = Some init ->
  (0 <= n)%Z -> (0 <= steps (a c))%Z ->
  truncate c (schedule c) = t0 :: rest ->
  let f := starting_timestep (a c) in
  let noise := normal B (snd (split B k))
                      (Z.to_nat n :: model_shape B (the_model c)) in
  let alpha := fst (t_to_alpha_sigma B t0) in
  let sigma := snd (t_to_alpha_sigma B t0) in
  let latent := tadd B (tmul_s B init alpha) (tmul_s B noise sigma) in
  let subkey := snd (split B (fst (split B k))) in
  t0 :: rest = filter (fun s => Rltb s f) (schedule c)
  /\ (forall s, In s (t0 :: rest) <-> In s (schedule c) /\ s < f)
  /\ Forall (fun s => s < f) (t0 :: rest)
  /\ run_setup c k n = Ok (subkey, latent, t0 :: rest)
  /\ run c k n
     = Ok (sample_loop B (the_model c) (the_params c) subkey latent
                       (t0 :: rest) (eta (a c)) (cond_fn c)).
Proof.
  intros Hinit Hn Hsteps Htr f noise alpha sigma latent subkey.
  assert (Hsetup : run_setup c k n = Ok (subkey, latent, t0 :: rest)).
  { unfold run_setup.
    destruct (Z.ltb_spec n 0) as [Hlt | _]; [lia |].
    destruct (Z.ltb_spec (steps (a c) + 1) 0) as [Hlt | _]; [lia |].
    unfold subkey, latent, noise, alpha, sigma.
    destruct (split B k) as [k1 sk] eqn:E1; simpl.
    destruct (split B k1) as [k2 sk2] eqn:E2; simpl.
    rewrite Hinit, Htr.
    now destruct (t_to_alpha_sigma B t0). }
  split; [| split; [| split; [| split]]].
  - rewrite <- Htr; reflexivity.
  - intros s; rewrite <- Htr; apply truncate_In.
  - rewrite <- Htr; apply truncate_below.
  - exact Hsetup.
  - unfold run; now rewrite Hsetup.
Qed.

(** When no entry of the schedule is below the starting timestep there is
    no first entry to take [alpha] and [sigma] at. *)
Lemma run_with_init_empty (k : key B) (n : Z) (init : tensor B) :
  init_image c = Some init ->
  (0 <= n)%Z -> (0 <= steps (a c))%Z ->
  truncate c (schedule c) = [] ->
  run c k n
  = Raise (IndexError "index is out of bounds for axis 0 with size 0").
Proof.
  intros Hinit Hn Hsteps Htr; unfold run, run_setup.
  destruct (Z.ltb_spec n 0) as [Hlt | _]; [lia |].
  destruct (Z.ltb_spec (steps (a c) + 1) 0) as [Hlt | _]; [lia |].
  destruct (split B k) as [k1 sk]; destruct (split B k1) as [k2 sk2].
  now rewrite Hinit, Htr.
Qed.

(** Without an initial image the control loop returns as many images as
    it was asked for. *)
Lemma run_returns_batch (k : key B) (n : Z) :
  init_image c = None ->
  (0 <= n)%Z -> (0 <= steps (a c))%Z ->
  exists outs, run c k n = Ok outs
               /\ length (unstack B outs) = Z.to_nat n.
Proof.
  intros Hinit Hn Hsteps; unfold run, run_setup.
  destruct (Z.ltb_spec n 0) as [Hlt | _]; [lia |].
  destruct (Z.ltb_spec (steps (a c) + 1) 0) as [Hlt | _]; [lia |].
  destruct (split B k) as [k1 sk]; destruct (split B k1) as [k2 sk2].
  rewrite Hinit; simpl; eexists; split; [reflexivity |].
  eapply shape_unstack.
  rewrite shape_sample_loop, shape_normal; reflexivity.
Qed.

End ControlLoopFacts.

(** ** The batch driver *)

Section BatchDriverFacts.

Import Program.
Open Scope Z_scope.
Open Scope list_scope.

Variable B : Backend.
Variable run_fn : key B -> Z -> result (tensor B).

Lemma indices_from_S (Bsz i : Z) (m : nat) :
  indices_from Bsz i (S m) = i :: indices_from Bsz (i + Bsz) m.
Proof.
  unfold indices_from; simpl; f_equal; [lia |].
  rewrite <- seq_shift, map_map; apply map_ext; intros j; lia.
Qed.

Lemma range_indices (N Bsz : Z) :
  1 <= N -> 1 <= Bsz ->
  PyInt.range 0 N Bsz
  = Ok (indices_from Bsz 0 (Z.to_nat ((N - 1) / Bsz + 1))).
Proof.
  intros HN HB; unfold PyInt.range, PyInt.range_len.
  destruct (Z.eqb_spec Bsz 0) as [-> | _]; [lia |].
  destruct (Z.ltb_spec 0 Bsz) as [_ | H]; [| lia].
  destruct (Z.ltb_spec 0 N) as [_ | H]; [| lia].
  now rewrite !Z.sub_0_r.
Qed.

Lemma requests_app (t1 t2 : list (event B)) :
  requests (t1 ++ t2) = requests t1 ++ requests t2.
Proof. apply flat_map_app. Qed.

Lemma saved_files_app (t1 t2 : list (event B)) :
  saved_files (t1 ++ t2) = saved_files t1 ++ saved_files t2.
Proof. apply flat_map_app. Qed.

Lemma requests_save_all (i : Z) (outs : tensor B) :
  requests (save_all B i outs) = [].
Proof.
  unfold save_all; induction (enumerate (unstack B outs)) as [| jo l IH];
    simpl; [reflexivity | exact IH].
Qed.

Lemma saved_files_save_all (i : Z) (outs : tensor B) :
  saved_files (save_all B i outs)
  = map (fun j => PyInt.out_name (i + Z.of_nat j))
        (seq 0 (length (unstack B outs))).
Proof.
  unfold save_all, enumerate.
  generalize (unstack B outs) as l, 0%nat as s.
  induction l as [| o l IH]; intros s; simpl; [reflexivity |].
  now rewrite IH.
Qed.

(** One iteration of the loop whose request succeeds. *)
Lemma run_all_loop_step (N Bsz i : Z) (rest : list Z) (k : key B)
      (outs : tensor B) :
  run_fn (fst (split B k)) (Z.min (N - i) Bsz) = Ok outs ->
  run_all_loop B run_fn N Bsz (i :: rest) k
  = (EvRun B (fst (split B k)) (Z.min (N - i) Bsz)
     :: save_all B i outs
     ++ fst (run_all_loop B run_fn N Bsz rest (fst (split B k))),
     snd (run_all_loop B run_fn N Bsz rest (fst (split B k)))).
Proof.
  intros Hrun; simpl run_all_loop.
  destruct (split B k) as [k' sk]; simpl fst in *.
  unfold io_bind, io_emit, io_lift; simpl; rewrite Hrun; simpl.
  reflexivity.
Qed.

Lemma seq_offset (s n : nat) :
  seq s n = map (fun j => (s + j)%nat) (seq 0 n).
Proof.
  revert s; induction n as [| n IH]; intros s; simpl; [reflexivity |].
  rewrite Nat.add_0_r; f_equal.
  rewrite <- (seq_shift n 0), map_map, (IH (S s)).
  apply map_ext; intros j; lia.
Qed.

Lemma names_split (i : Z) (n1 n2 : nat) :
  map (fun j => PyInt.out_name (i + Z.of_nat j)) (seq 0 (n1 + n2))
  = map (fun j => PyInt.out_name (i + Z.of_nat j)) (seq 0 n1)
    ++ map (fun j => PyInt.out_name (i + Z.of_nat n1 + Z.of_nat j))
           (seq 0 n2).
Proof.
  rewrite seq_app, map_app; f_equal; simpl.
  rewrite (seq_offset n1 n2), map_map; apply map_ext; intros j.
  f_equal; lia.
Qed.

(** The loop invariant: at the head of an iteration the index [i] is the
    number of samples produced so far. *)
Lemma run_all_loop_spec (N Bsz : Z) :
  returns_batches B run_fn -> 1 <= Bsz ->
  forall (m : nat) (i : Z) (k : key B) (fuel : nat),
    0 <= i -> (m <= fuel)%nat ->
    (m = 0%nat -> N <= i) ->
    (m <> 0%nat -> i + (Z.of_nat m - 1) * Bsz < N <= i + Z.of_nat m * Bsz) ->
    let r := run_all_loop B run_fn N Bsz (indices_from Bsz i m) k in
    snd r = Ok tt
    /\ map snd (requests (fst r)) = SpecWords.batch_plan fuel N Bsz i
    /\ map fst (requests (fst r)) = fresh_keys B k m
    /\ saved_files (fst r)
       = map (fun j => PyInt.out_name (i + Z.of_nat j))
             (seq 0 (Z.to_nat (N - i))).
Proof.
  intros Hrun HB; induction m as [| m IH]; intros i k fuel Hi Hfuel H0 HS.
  - specialize (H0 eq_refl); simpl; repeat split.
    + destruct fuel; simpl; [reflexivity |].
      destruct (Z.ltb_spec i N); [lia | reflexivity].
    + replace (Z.to_nat (N - i)) with 0%nat by lia; reflexivity.
  - assert (HS' := HS (Nat.neq_succ_0 m)); clear H0 HS.
    destruct fuel as [| fuel]; [lia |].
    set (cur := Z.min (N - i) Bsz).
    assert (Hcur : 1 <= cur) by (unfold cur; nia).
    destruct (Hrun (fst (split B k)) cur Hcur) as (outs & Hok & Hlen).
    rewrite indices_from_S; cbv zeta.
    rewrite (@run_all_loop_step N Bsz i (indices_from Bsz (i + Bsz) m) k outs
               Hok); fold cur; simpl fst; simpl snd.
    assert (Hnext : i + Bsz = i + cur \/ (m = 0%nat /\ cur = N - i)).
    { destruct m; [right; split; [reflexivity | unfold cur; nia] |].
      left; unfold cur; nia. }
    assert (G1 : 0 <= i + Bsz) by lia.
    assert (G2 : (m <= fuel)%nat) by lia.
    assert (G3 : m = 0%nat -> N <= i + Bsz) by (intros ->; nia).
    assert (G4 : m <> 0%nat ->
                 i + Bsz + (Z.of_nat m - 1) * Bsz < N
                 <= i + Bsz + Z.of_nat m * Bsz) by (intros Hm; nia).
    destruct (IH (i + Bsz) (fst (split B k)) fuel G1 G2 G3 G4)
      as (I1 & I2 & I3 & I4).
    split; [exact I1 |].
    change (EvRun B (fst (split B k)) cur
            :: save_all B i outs
            ++ fst (run_all_loop B run_fn N Bsz (indices_from Bsz (i + Bsz) m)
                                 (fst (split B k))))
      with ([EvRun B (fst (split B k)) cur]
            ++ save_all B i outs
            ++ fst (run_all_loop B run_fn N Bsz (indices_from Bsz (i + Bsz) m)
                                 (fst (split B k)))).
    rewrite !requests_app, !saved_files_app, requests_save_all,
      saved_files_save_all, Hlen; simpl.
    rewrite I2, I3, I4.
    split; [| split; [reflexivity |]].
    + destruct (Z.ltb_spec i N) as [_ | H]; [| nia].
      rewrite Z.min_comm; fold cur; f_equal.
      destruct Hnext as [He | [-> Hc]].
      * now rewrite He.
      * replace (i + cur) with N by lia.
        destruct fuel; simpl; [reflexivity |].
        destruct (Z.ltb_spec N N); [lia |].
        destruct (Z.ltb_spec (i + Bsz) N); [nia | reflexivity].
    + replace (Z.to_nat (N - i))
        with (Z.to_nat cur + Z.to_nat (N - (i + Bsz)))%nat by (unfold cur; nia).
      rewrite names_split; f_equal.
      destruct Hnext as [He | [-> Hc]].
      * apply map_ext; intros j; f_equal; lia.
      * replace (Z.to_nat (N - (i + Bsz))) with 0%nat by nia; reflexivity.
Qed.



End BatchDriverFacts.

(** ** The two loops on the shape-only backend *)

Section ShapeOnlyRuns.

Import Program.
Open Scope list_scope.

Lemma run_with_init_witness :
  let c := ShapeOnly.program_closure
             (ShapeOnly.demo_args "a cat" (Some "init.png")
                                  (Prompt.PyString "") 1 1 2)
             (Some [1; 3; 4; 4]%nat) in
  let t0 := (1 + (0 - 1) * INR 1 / INR (3 - 1))%R in
  (init_image c = Some [1; 3; 4; 4]%nat
   /\ (0 <= 1)%Z /\ (0 <= steps (a c))%Z
   /\ truncate c (schedule c) = [t0])
  /\ (Forall (fun s => (s < 9 / 10)%R) [t0]
      /\ run_setup c 0%nat 1 = Ok (4%nat, [1; 3; 4; 4]%nat, [t0])).
Proof.
  intros c t0.
  assert (H1 : init_image c = Some [1; 3; 4; 4]%nat) by reflexivity.
  assert (H2 : (0 <= 1)%Z) by lia.
  assert (H3 : (0 <= steps (a c))%Z) by (simpl; lia).
  assert (H4 : truncate c (schedule c) = [t0]).
  { unfold truncate, schedule, linspace, Rltb; simpl.
    destruct (Rlt_dec _ _) as [H | H]; [lra |].
    destruct (Rlt_dec _ _) as [H' | H']; [reflexivity | lra]. }
  split; [repeat split; assumption |].
  pose proof (@run_with_init ShapeOnly.backend c 0%nat 1%Z
                [1; 3; 4; 4]%nat t0 [] H1 H2 H3 H4) as H.
  cbv zeta in H; destruct H as (_ & _ & HF & Hs & _).
  split; [exact HF | exact Hs].
Defined.


End ShapeOnlyRuns.

(** ** [main]: what happens before sampling *)

Section MainFacts.

Import Program.
Open Scope list_scope.

Variable B : Backend.

Lemma text_targets_trace (cp : clip_params B) (s : string) :
  Forall (fun ev : event B => is_sampling ev = false)
         (fst (text_targets B cp s)).
Proof.
  unfold text_targets; destruct (String.eqb s ""); [constructor |].
  apply io_bind_trace; [constructor | intros pw].
  apply io_bind_trace; [| intros es; constructor].
  apply io_map_trace; intros p.
  apply io_bind_trace; [| intros u; constructor].
  repeat constructor.
Qed.

Lemma load_init_trace (m : model B) (o : option string) :
  Forall (fun ev : event B => is_sampling ev = false)
         (fst (load_init B m o)).
Proof.
  unfold load_init; destruct o as [path |]; [| constructor].
  destruct (String.eqb path ""); [constructor |].
  destruct (model_shape B m) as [| d1 [| d2 [| d3 [| d4 l]]]];
    try constructor.
  - reflexivity.
  - constructor.
Qed.

Lemma image_targets_trace (cp : clip_params B) (x : Prompt.pyarg) :
  Forall (fun ev : event B => is_sampling ev = false)
         (fst (image_targets B cp x)).
Proof.
  unfold image_targets; destruct (ne_empty x); [| constructor].
  apply io_bind_trace; [constructor | intros pw].
  apply io_bind_trace; [| intros es; constructor].
  apply io_map_trace; intros p.
  apply io_bind_trace; [| intros u; constructor].
  repeat constructor.
Qed.

(** Nothing is sampled or saved while [main] sets up. *)
Lemma setup_trace (ar : args) : Forall (fun ev : event B => is_sampling ev = false)
         (fst (setup B ar)).
Proof.
  unfold setup.
  apply io_bind_trace; [repeat constructor | intros _].
  apply io_bind_trace; [repeat constructor | intros _].
  apply io_bind_trace; [repeat constructor | intros _].
  apply io_bind_trace; [apply text_targets_trace | intros txt].
  apply io_bind_trace; [apply load_init_trace | intros ini].
  apply io_bind_trace; [apply image_targets_trace | intros img].
  constructor.
Qed.

Lemma image_targets_none (cp : clip_params B) :
  image_targets B cp Prompt.PyNone
  = ([], Raise (AttributeError "NoneType" "split")).
Proof. reflexivity. Qed.

(** With [target_img] absent the set-up never completes. *)
Lemma setup_absent_target_img (ar : args) :
  target_img ar = Prompt.PyNone ->
  exists e, snd (setup B ar) = Raise e.
Proof.
  intros Hnone; unfold setup.
  do 5 (apply io_bind_raise_later; intros ?).
  rewrite Hnone, image_targets_none.
  now exists (AttributeError "NoneType" "split").
Qed.

Lemma setup_absent_target_img_exn (ar : args) :
  target_img ar = Prompt.PyNone ->
  is_ok (snd (text_targets B (clip_load B "ViT-B/16") (prompt ar))) = true ->
  is_ok (snd (load_init B (get_model B (model_name ar)) (init ar))) = true ->
  snd (setup B ar) = Raise (AttributeError "NoneType" "split").
Proof.
  intros Hnone Ht Hi; unfold setup.
  unfold io_bind at 1; simpl.
  unfold io_bind at 1; simpl.
  unfold io_bind at 1; simpl.
  unfold io_bind at 1.
  destruct (snd (text_targets B (clip_load B "ViT-B/16") (prompt ar)))
    as [txt | e]; [| discriminate]; simpl.
  unfold io_bind at 1.
  destruct (snd (load_init B (get_model B (model_name ar)) (init ar)))
    as [ini | e]; [| discriminate]; simpl.
  now rewrite Hnone, image_targets_none.
Qed.

(** C10: when the image-target flag is absent its value is [None]; the
    guard against the empty string lets it through, the prompt parser is
    called on [None] and raises, so [main] ends in an error with nothing
    sampled or saved: the path with no image targets is not taken.  When
    the text prompt and the initial image load, the error is the
    AttributeError of [None.split]. *)
Theorem main_absent_target_img (ar : args) :
  target_img ar = Prompt.PyNone ->
  ne_empty (target_img ar) = true
  /\ Prompt.parse_prompts (target_img ar)
     = Raise (AttributeError "NoneType" "split")
  /\ (exists e, snd (main B ar) = Raise e)
  /\ Forall (fun ev => is_sampling ev = false) (fst (main B ar))
  /\ (is_ok (snd (text_targets B (clip_load B "ViT-B/16") (prompt ar)))
      = true ->
      is_ok (snd (load_init B (get_model B (model_name ar)) (init ar)))
      = true ->
      snd (main B ar) = Raise (AttributeError "NoneType" "split")).
Proof.
  intros Hnone.
  destruct (setup_absent_target_img ar Hnone) as [e He].
  assert (Hmain : main B ar = (fst (setup B ar), Raise e))
    by (unfold main; now apply io_bind_raise).
  rewrite Hnone; repeat split.
  - rewrite Hmain; now exists e.
  - rewrite Hmain; apply setup_trace.
  - intros Ht Hi.
    pose proof (setup_absent_target_img_exn ar Hnone Ht Hi) as H.
    rewrite He in H; injection H as ->; now rewrite Hmain.
Qed.

(** C4, as the code has it: in a delimited prompt, the first segment that
    does not parse being one with a non-numeric weight suffix, the parser
    raises the ValueError of the float conversion; [main] then ends with
    that error after the model, the checkpoint and the embedding model
    were loaded and before any prompt is embedded.  A prompt without
    delimiter is taken whole with weight 1, whatever follows its ':'. *)
Theorem parse_prompts_bad_weight (s : string) (pre post : list string)
        (seg p w : string) :
  PyStr.contains "|" s = true ->
  PyStr.split "|" s = pre ++ seg :: post ->
  Forall (fun x => is_ok (Prompt.parse_segment x) = true) pre ->
  PyStr.split ":" seg = [p; w] ->
  PyFloat.of_string w = None ->
  let e := ValueError ("could not convert string to float: " ++ w) in
  Prompt.parse_prompts (Prompt.PyString s) = Raise e
  /\ (forall ar : args,
         prompt ar = s ->
         main B ar
         = ([EvGetModel B (model_name ar);
             EvLoadParams B (checkpoint_path ar);
             EvLoadClip B "ViT-B/16"], Raise e))
  /\ (forall s' : string,
         PyStr.contains "|" s' = false ->
         Prompt.parse_prompts (Prompt.PyString s')
         = Ok ([s'], [Prompt.WInt 1])).
Proof.
  intros Hc Hsplit Hpre Hseg Hw e.
  assert (Hparse : Prompt.parse_prompts (Prompt.PyString s) = Raise e).
  { rewrite (parse_prompts_delimited _ Hc), Hsplit.
    apply parse_segments_raise; [exact Hpre |].
    now apply parse_segment_bad_weight with (p := p). }
  split; [exact Hparse |]; split; [| apply parse_prompts_undelimited].
  intros ar Hs; unfold main, setup, text_targets; rewrite Hs.
  assert (Hne : String.eqb s "" = false).
  { destruct s; [discriminate | reflexivity]. }
  rewrite Hne, Hparse; reflexivity.
Qed.

End MainFacts.

(** ** [main] on the shape-only backend *)

Section ShapeOnlyMain.

Import Program.
Open Scope list_scope.
Open Scope string_scope.

Lemma main_absent_target_img_witness :
  let ar := ShapeOnly.demo_args "a cat" None Prompt.PyNone 1 1 50 in
  target_img ar = Prompt.PyNone
  /\ (snd (main ShapeOnly.backend ar)
      = Raise (AttributeError "NoneType" "split")
      /\ Forall (fun ev => is_sampling ev = false)
                (fst (main ShapeOnly.backend ar))).
Proof.
  intros ar.
  assert (H : target_img ar = Prompt.PyNone) by reflexivity.
  split; [exact H |].
  destruct (@main_absent_target_img ShapeOnly.backend ar H)
    as (_ & _ & _ & Htr & Hexn).
  split; [apply Hexn; reflexivity | exact Htr].
Defined.

Lemma parse_prompts_bad_weight_witness :
  let s := "a cat:2|x:notanumber" in
  let ar := ShapeOnly.demo_args s None (Prompt.PyString "") 1 1 50 in
  let e := ValueError "could not convert string to float: notanumber" in
  (PyStr.contains "|" s = true
   /\ PyStr.split "|" s = (["a cat:2"] ++ "x:notanumber" :: [])%list
   /\ Forall (fun x => is_ok (Prompt.parse_segment x) = true) ["a cat:2"]
   /\ PyStr.split ":" "x:notanumber" = ["x"; "notanumber"]
   /\ PyFloat.of_string "notanumber" = None)
  /\ (Prompt.parse_prompts (Prompt.PyString s) = Raise e
      /\ main ShapeOnly.backend ar
         = ([EvGetModel ShapeOnly.backend "cc12m_1";
             EvLoadParams ShapeOnly.backend "checkpoints/cc12m_1.pkl";
             EvLoadClip ShapeOnly.backend "ViT-B/16"], Raise e)).
Proof.
  intros s ar e.
  assert (H1 : PyStr.contains "|" s = true) by reflexivity.
  assert (H2 : PyStr.split "|" s = (["a cat:2"] ++ "x:notanumber" :: [])%list)
    by reflexivity.
  assert (H3 : Forall (fun x => is_ok (Prompt.parse_segment x) = true)
                      ["a cat:2"])
    by (apply Forall_cons; [reflexivity | apply Forall_nil]).
  assert (H4 : PyStr.split ":" "x:notanumber" = ["x"; "notanumber"])
    by reflexivity.
  assert (H5 : PyFloat.of_string "notanumber" = None) by reflexivity.
  split; [repeat split; assumption |].
  destruct (@parse_prompts_bad_weight ShapeOnly.backend s ["a cat:2"] []
              "x:notanumber" "x" "notanumber" H1 H2 H3 H4 H5)
    as (Hp & Hm & _).
  split; [exact Hp | exact (Hm ar eq_refl)].
Defined.

(** C4 does not hold as stated: alone, "x:notanumber" has no delimiter and
    is returned whole with weight 1, no error; and when a delimited prompt
    with that segment is rejected, the model, the checkpoint and the
    embedding model have already been loaded. *)
Lemma parse_prompts_bad_weight_not_always :
  Prompt.parse_prompts (Prompt.PyString "x:notanumber")
  = Ok (["x:notanumber"], [Prompt.WInt 1])
  /\ main ShapeOnly.backend
          (ShapeOnly.demo_args "a cat:2|x:notanumber" None
                               (Prompt.PyString "") 1 1 50)
     = ([EvGetModel ShapeOnly.backend "cc12m_1";
         EvLoadParams ShapeOnly.backend "checkpoints/cc12m_1.pkl";
         EvLoadClip ShapeOnly.backend "ViT-B/16"],
        Raise (ValueError "could not convert string to float: notanumber")).
Proof. split; reflexivity. Qed.

End ShapeOnlyMain.

(** ** Further properties *)

Section Further.

Import Program.
Open Scope list_scope.
Open Scope string_scope.

(** The spec's weighted example: "a cat:2|a dog:1" parses to the
    texts "a cat" and "a dog" with the weights 2.0 and 1.0. *)
Theorem parse_prompts_weighted_pair :
  Prompt.parse_prompts (Prompt.PyString "a cat:2|a dog:1")
  = Ok (["a cat"; "a dog"],
        [Prompt.WFloat (PyFloat.Finite false 2 0);
         Prompt.WFloat (PyFloat.Finite false 1 0)]).
Proof. reflexivity. Qed.

(** X2: an input without '|' is one prompt: the string itself, not
    stripped and not split on ':', with the int weight 1. *)
Theorem parse_prompts_no_delimiter (s : string) :
  PyStr.contains "|" s = false ->
  Prompt.parse_prompts (Prompt.PyString s) = Ok ([s], [Prompt.WInt 1]).
Proof. apply parse_prompts_undelimited. Qed.

Lemma parse_prompts_no_delimiter_witness :
  PyStr.contains "|" " a cat:x " = false
  /\ Prompt.parse_prompts (Prompt.PyString " a cat:x ")
     = Ok ([" a cat:x "], [Prompt.WInt 1]).
Proof.
  assert (H : PyStr.contains "|" " a cat:x " = false) by reflexivity.
  split; [exact H | exact (parse_prompts_no_delimiter " a cat:x " H)].
Defined.

(** X3: in a delimited prompt every segment needs exactly one ':': a
    segment with none, or with two or more, makes the parser raise. *)
Theorem parse_prompts_needs_one_colon (s : string) :
  PyStr.contains "|" s = true ->
  Exists (fun seg => length (PyStr.split ":" seg) <> 2%nat)
         (PyStr.split "|" s) ->
  is_ok (Prompt.parse_prompts (Prompt.PyString s)) = false.
Proof. apply parse_prompts_unweighted_segment. Qed.

Lemma parse_prompts_needs_one_colon_witness :
  (PyStr.contains "|" "a:1|b:2:3" = true
   /\ Exists (fun seg => length (PyStr.split ":" seg) <> 2%nat)
             (PyStr.split "|" "a:1|b:2:3"))
  /\ is_ok (Prompt.parse_prompts (Prompt.PyString "a:1|b:2:3")) = false.
Proof.
  assert (H1 : PyStr.contains "|" "a:1|b:2:3" = true) by reflexivity.
  assert (H2 : Exists (fun seg => length (PyStr.split ":" seg) <> 2%nat)
                      (PyStr.split "|" "a:1|b:2:3")).
  { apply Exists_cons_tl, Exists_cons_hd; simpl; discriminate. }
  split; [split; assumption |].
  exact (parse_prompts_needs_one_colon "a:1|b:2:3" H1 H2).
Defined.

(** X4: with an initial image and no schedule entry below the starting
    timestep, [run] raises IndexError at [steps[0]] and nothing is handed
    to the sampler. *)
Theorem run_with_init_nothing_below (B : Backend) (c : closure B)
        (k : key B) (n : Z) (init : tensor B) :
  init_image c = Some init ->
  (0 <= n)%Z -> (0 <= steps (a c))%Z ->
  truncate c (schedule c) = [] ->
  run c k n
  = Raise (IndexError "index is out of bounds for axis 0 with size 0").
Proof. apply run_with_init_empty. Qed.

Lemma run_with_init_nothing_below_witness :
  let c := ShapeOnly.program_closure
             (ShapeOnly.demo_args "a cat" (Some "init.png")
                                  (Prompt.PyString "") 1 1 0)
             (Some [1; 3; 4; 4]%nat) in
  (init_image c = Some [1; 3; 4; 4]%nat
   /\ (0 <= 1)%Z /\ (0 <= steps (a c))%Z
   /\ truncate c (schedule c) = [])
  /\ run c 0%nat 1
     = Raise (IndexError "index is out of bounds for axis 0 with size 0").
Proof.
  intros c.
  assert (H1 : init_image c = Some [1; 3; 4; 4]%nat) by reflexivity.
  assert (H2 : (0 <= 1)%Z) by lia.
  assert (H3 : (0 <= steps (a c))%Z) by (simpl; lia).
  assert (H4 : truncate c (schedule c) = []) by reflexivity.
  split; [repeat split; assumption |].
  exact (@run_with_init_nothing_below ShapeOnly.backend c 0%nat 1%Z
           [1; 3; 4; 4]%nat H1 H2 H3 H4).
Defined.

(** The file name format pads the index with zeros to five digits and
    never truncates it. *)
Theorem out_name_examples :
  PyInt.out_name 0 = "out_00000.png"
  /\ PyInt.out_name 42 = "out_00042.png"
  /\ PyInt.out_name 99999 = "out_99999.png"
  /\ PyInt.out_name 123456 = "out_123456.png".
Proof. repeat split; reflexivity. Qed.

Lemma io_bind_ok_inv (E A C : Type) (m : io E A) (k : A -> io E C) (r : C) :
  snd (io_bind m k) = Ok r -> exists x, snd m = Ok x /\ snd (k x) = Ok r.
Proof.
  unfold io_bind; destruct (snd m) as [x | e]; simpl; intros H;
    [now exists x | discriminate].
Qed.

Lemma io_map_length (E A C : Type) (f : A -> io E C) (l : list A)
      (r : list C) :
  snd (io_map f l) = Ok r -> length r = length l.
Proof.
  revert r; induction l as [| x l IH]; intros r; simpl.
  - intros H; injection H as <-; reflexivity.
  - intros H; apply io_bind_ok_inv in H; destruct H as (y & _ & H).
    apply io_bind_ok_inv in H; destruct H as (ys & Hys & H).
    injection H as <-; simpl; now rewrite (IH ys Hys).
Qed.

Lemma parse_segments_lengths (splt tp : list string)
      (tw : list Prompt.weight) (r : list string * list Prompt.weight) :
  Prompt.parse_segments splt tp tw = Ok r ->
  length tp = length tw -> length (fst r) = length (snd r).
Proof.
  revert tp tw; induction splt as [| seg splt IH]; intros tp tw; simpl.
  - intros H; injection H as <-; auto.
  - destruct (Prompt.parse_segment seg) as [pw | e]; simpl;
      [| discriminate].
    intros H Hl; eapply IH; [exact H |].
    rewrite !length_app; simpl; lia.
Qed.

Lemma parse_prompts_lengths (x : Prompt.pyarg)
      (r : list string * list Prompt.weight) :
  Prompt.parse_prompts x = Ok r -> length (fst r) = length (snd r).
Proof.
  destruct x as [| s]; simpl; [discriminate |].
  destruct (list_eq_dec string_dec (PyStr.split "|" s) [s]).
  - intros H; injection H as <-; reflexivity.
  - intros H; eapply parse_segments_lengths; [exact H | reflexivity].
Qed.

Lemma text_targets_lengths (B : Backend) (cp : clip_params B) (s : string)
      (r : list (list R) * list Prompt.weight) :
  snd (text_targets B cp s) = Ok r -> length (fst r) = length (snd r).
Proof.
  unfold text_targets; destruct (String.eqb s "").
  - intros H; injection H as <-; reflexivity.
  - intros H; apply io_bind_ok_inv in H; destruct H as (pw & Hpw & H).
    apply io_bind_ok_inv in H; destruct H as (es & Hes & H).
    injection H as <-; simpl.
    rewrite (io_map_length _ _ Hes).
    eapply parse_prompts_lengths; exact Hpw.
Qed.

Lemma image_targets_lengths (B : Backend) (cp : clip_params B)
      (x : Prompt.pyarg) (r : list (list R) * list Prompt.weight) :
  snd (image_targets B cp x) = Ok r -> length (fst r) = length (snd r).
Proof.
  unfold image_targets; destruct (ne_empty x).
  - intros H; apply io_bind_ok_inv in H; destruct H as (pw & Hpw & H).
    apply io_bind_ok_inv in H; destruct H as (es & Hes & H).
    injection H as <-; simpl.
    rewrite (io_map_length _ _ Hes).
    eapply parse_prompts_lengths; exact Hpw.
  - intros H; injection H as <-; reflexivity.
Qed.

(** X6: when [main] gets as far as sampling, each target set pairs every
    embedding with a weight: the text embeddings are as many as the text
    weights, the image embeddings as many as the image weights, so the
    [zip] of the loss drops no target. *)
Theorem setup_target_sets (B : Backend) (ar : args) (c : closure B)
        (k : key B) :
  snd (setup B ar) = Ok (c, k) ->
  length (Guidance.target_embeds (guidance c))
  = length (Guidance.target_w (guidance c))
  /\ length (Guidance.target_img_embeds (guidance c))
     = length (Guidance.target_img_w (guidance c)).
Proof.
  unfold setup; intros H.
  do 3 (apply io_bind_ok_inv in H; destruct H as (? & _ & H)).
  apply io_bind_ok_inv in H; destruct H as (txt & Htxt & H).
  apply io_bind_ok_inv in H; destruct H as (ini & _ & H).
  apply io_bind_ok_inv in H; destruct H as (img & Himg & H).
  injection H as <- _; simpl; rewrite !length_map; split.
  - now apply text_targets_lengths in Htxt.
  - now apply image_targets_lengths in Himg.
Qed.

Lemma setup_target_sets_witness :
  let ar := ShapeOnly.demo_args "a cat:2|a dog:1" None
                                (Prompt.PyString "") 1 1 50 in
  exists c k,
    snd (setup ShapeOnly.backend ar) = Ok (c, k)
    /\ length (Guidance.target_embeds (guidance c)) = 2%nat
    /\ length (Guidance.target_w (guidance c)) = 2%nat
    /\ length (Guidance.target_img_embeds (guidance c))
       = length (Guidance.target_img_w (guidance c)).
Proof.
  intros ar.
  destruct (snd (setup ShapeOnly.backend ar)) as [[c k] | e] eqn:E;
    [| discriminate].
  exists c, k; split; [reflexivity |].
  destruct (@setup_target_sets ShapeOnly.backend ar c k E) as [H1 H2].
  split; [| split; [rewrite <- H1 | exact H2]];
    injection E as <- _; reflexivity.
Defined.

End Further.

(** ** The parser on its working domain *)

Section ParserDomain.

Import Prompt.
Open Scope string_scope.
Open Scope list_scope.

Lemma contains_app (c : ascii) (s1 s2 : string) :
  PyStr.contains c (s1 ++ s2)%string = PyStr.contains c s1 || PyStr.contains c s2.
Proof.
  induction s1 as [| d s1 IH]; simpl; [reflexivity |].
  now rewrite IH, orb_assoc.
Qed.


Lemma split_parts_no_sep (sep : ascii) (s : string) :
  Forall (fun p => PyStr.contains sep p = false) (PyStr.split sep s).
Proof.
  induction s as [| d s IH]; simpl.
  - repeat constructor.
  - destruct (Ascii.eqb d sep) eqn:E.
    + constructor; [reflexivity | exact IH].
    + destruct (PyStr.split sep s) as [| h t]; [repeat constructor |].
      * simpl; now rewrite E.
      * inversion IH as [| ? ? Hh Ht]; subst.
        constructor; [simpl; now rewrite E, Hh | exact Ht].
Qed.

Lemma split_length (sep : ascii) (s : string) :
  length (PyStr.split sep s) = S (Text.count sep s).
Proof.
  induction s as [| d s IH]; simpl; [reflexivity |].
  destruct (Ascii.eqb d sep); simpl; [now rewrite IH |].
  destruct (PyStr.split sep s) as [| h t]; simpl in *; [discriminate |].
  exact IH.
Qed.

Lemma join_split (sep : ascii) (s : string) :
  Text.join sep (PyStr.split sep s) = s.
Proof.
  induction s as [| d s IH]; simpl; [reflexivity |].
  destruct (Ascii.eqb_spec d sep) as [-> | Hd].
  - destruct (PyStr.split sep s) as [| h t] eqn:E.
    + now apply split_nonempty in E.
    + change (Text.join sep (EmptyString :: h :: t))
        with (String sep (Text.join sep (h :: t))).
      now rewrite IH.
  - destruct (PyStr.split sep s) as [| h t] eqn:E.
    + now apply split_nonempty in E.
    + destruct t as [| h' t']; simpl in *; now rewrite <- IH.
Qed.



Lemma lstrip_no_leading (s : string) :
  Text.starts_with " " (PyStr.lstrip s) = false.
Proof.
  induction s as [| d s IH]; simpl; [reflexivity |].
  destruct (Ascii.eqb d " ") eqn:E; [exact IH | simpl; exact E].
Qed.

Lemma rstrip_no_trailing (s : string) :
  Text.ends_with " " (PyStr.rstrip s) = false.
Proof.
  induction s as [| d s IH]; simpl; [reflexivity |].
  destruct (PyStr.rstrip s) as [| e r] eqn:E.
  - destruct (Ascii.eqb d " ") eqn:Ed; simpl; [reflexivity | exact Ed].
  - exact IH.
Qed.

Lemma rstrip_keeps_head (s : string) :
  Text.starts_with " " s = false ->
  Text.starts_with " " (PyStr.rstrip s) = false.
Proof.
  destruct s as [| d s]; simpl; [reflexivity |]; intros Hd.
  destruct (PyStr.rstrip s); [rewrite Hd |]; simpl; now try rewrite Hd.
Qed.

Lemma lstrip_contains (c : ascii) (s : string) :
  PyStr.contains c s = false -> PyStr.contains c (PyStr.lstrip s) = false.
Proof.
  induction s as [| d s IH]; simpl; [reflexivity |]; intros H.
  apply orb_false_iff in H; destruct H as [Hd Hs].
  destruct (Ascii.eqb d " "); [now apply IH | simpl; now rewrite Hd, Hs].
Qed.

Lemma rstrip_contains (c : ascii) (s : string) :
  PyStr.contains c s = false -> PyStr.contains c (PyStr.rstrip s) = false.
Proof.
  induction s as [| d s IH]; simpl; [reflexivity |]; intros H.
  apply orb_false_iff in H; destruct H as [Hd Hs]; specialize (IH Hs).
  destruct (PyStr.rstrip s) as [| e r].
  - destruct (Ascii.eqb d " "); simpl; [reflexivity | now rewrite Hd].
  - simpl in *; now rewrite Hd, IH.
Qed.

(** What a successful iteration of the loop has seen and produced. *)
Lemma parse_segment_ok (seg p : string) (w : weight) :
  parse_segment seg = Ok (p, w) ->
  exists p0 w0 f,
    PyStr.split ":" seg = [p0; w0]
    /\ p = PyStr.rstrip (PyStr.lstrip p0)
    /\ w = WFloat f
    /\ PyFloat.of_string w0 = Some f.
Proof.
  unfold parse_segment, split_segment.
  destruct (PyStr.split ":" seg) as [| p0 [| w0 [| z l]]]; simpl;
    try discriminate.
  destruct (PyFloat.of_string w0) as [f |] eqn:E; simpl; [| discriminate].
  intros H; injection H as <- <-; now exists p0, w0, f.
Qed.

(** The loop appends one text and one weight per segment, in order. *)
Lemma parse_segments_ok (splt : list string) :
  forall (tp : list string) (tw : list weight)
         (r : list string * list weight),
    parse_segments splt tp tw = Ok r <->
    exists pws,
      Forall2 (fun seg pw => parse_segment seg = Ok pw) splt pws
      /\ r = (tp ++ map fst pws, tw ++ map snd pws).
Proof.
  induction splt as [| seg splt IH]; intros tp tw r; simpl.
  - split.
    + intros H; injection H as <-; exists []; split; [constructor |].
      now rewrite !app_nil_r.
    + intros (pws & HF & ->); inversion HF; subst; simpl.
      now rewrite !app_nil_r.
  - split.
    + destruct (parse_segment seg) as [pw | e] eqn:E; simpl; [| discriminate].
      intros H; apply IH in H; destruct H as (pws & HF & ->).
      exists (pw :: pws); split; [now constructor |].
      simpl; now rewrite <- !app_assoc.
    + intros (pws & HF & ->); inversion HF as [| ? pw ? pws' Hpw HF']; subst.
      rewrite Hpw; simpl; apply IH; exists pws'; split; [exact HF' |].
      simpl; now rewrite <- !app_assoc.
Qed.


Lemma Forall2_Forall_r (A C : Type) (R : A -> C -> Prop) (P : C -> Prop)
      (l1 : list A) (l2 : list C) :
  Forall2 R l1 l2 ->
  (forall a b, In a l1 -> R a b -> P b) ->
  Forall P l2.
Proof.
  induction 1 as [| a b l1 l2 Hab _ IH]; intros HP; constructor.
  - apply (HP a b); [now left | exact Hab].
  - apply IH; intros a' b' Hin; apply HP; now right.
Qed.

Lemma Forall2_in_l (A C : Type) (R : A -> C -> Prop) (l1 : list A)
      (l2 : list C) (a : A) :
  Forall2 R l1 l2 -> In a l1 -> exists b, In b l2 /\ R a b.
Proof.
  induction 1 as [| a' b l1 l2 Hab _ IH]; simpl; [contradiction |].
  intros [-> | Hin].
  - exists b; split; [now left | exact Hab].
  - destruct (IH Hin) as (b' & Hb' & HR); exists b'; split;
      [now right | exact HR].
Qed.




(** X7: whenever the parser returns, it returns as many texts and as many
    weights as the input has '|' plus one.  Without '|' the result is the
    input itself with the int weight 1.  With '|', every segment has
    exactly one ':', every weight is a float, and no text starts or ends
    with a space or contains ':' or '|'. *)
Theorem parse_prompts_ok_shape (s : string) (ps : list string)
        (ws : list weight) :
  parse_prompts (PyString s) = Ok (ps, ws) ->
  length ps = S (Text.count "|" s)
  /\ length ws = S (Text.count "|" s)
  /\ (PyStr.contains "|" s = false -> ps = [s] /\ ws = [WInt 1])
  /\ (PyStr.contains "|" s = true ->
      Forall (fun seg => Text.count ":" seg = 1%nat) (PyStr.split "|" s)
      /\ Forall (fun w => exists f, w = WFloat f) ws
      /\ Forall (fun p => Text.starts_with " " p = false
                          /\ Text.ends_with " " p = false
                          /\ PyStr.contains ":" p = false
                          /\ PyStr.contains "|" p = false) ps).
Proof.
  intros Hok; destruct (PyStr.contains "|" s) eqn:Hc.
  - rewrite (parse_prompts_delimited _ Hc) in Hok.
    apply parse_segments_ok in Hok; destruct Hok as (pws & HF & Heq).
    simpl in Heq; injection Heq as -> ->.
    assert (Hlen : length pws = S (Text.count "|" s)).
    { rewrite <- (Forall2_length HF); apply split_length. }
    rewrite !length_map.
    split; [exact Hlen |]; split; [exact Hlen |].
    split; [discriminate |]; intros _.
    pose proof (split_parts_no_sep "|" s) as Hbar.
    split; [| split].
    + apply Forall_forall; intros seg Hseg.
      destruct (@Forall2_in_l _ _ _ _ _ seg HF Hseg) as ([p w] & _ & Hpw).
      apply parse_segment_ok in Hpw; destruct Hpw as (p0 & w0 & f & Hs & _).
      pose proof (split_length ":" seg) as Hl; rewrite Hs in Hl.
      simpl in Hl; lia.
    + apply Forall_map.
      eapply Forall2_Forall_r; [exact HF |]; intros seg [p w] _ Hpw.
      apply parse_segment_ok in Hpw.
      destruct Hpw as (p0 & w0 & f & _ & _ & -> & _); now exists f.
    + apply Forall_map.
      eapply Forall2_Forall_r; [exact HF |]; intros seg [p w] Hseg Hpw.
      apply parse_segment_ok in Hpw.
      destruct Hpw as (p0 & w0 & f & Hs & -> & _); simpl.
      pose proof (split_parts_no_sep ":" seg) as Hcol; rewrite Hs in Hcol.
      inversion Hcol as [| ? ? Hp0 _]; subst.
      rewrite Forall_forall in Hbar; specialize (Hbar seg Hseg).
      pose proof (join_split ":" seg) as Hj; rewrite Hs in Hj.
      rewrite <- Hj in Hbar; simpl in Hbar.
      rewrite contains_app in Hbar; apply orb_false_iff in Hbar.
      destruct Hbar as [Hb0 _].
      repeat split.
      * apply rstrip_keeps_head, lstrip_no_leading.
      * apply rstrip_no_trailing.
      * now apply rstrip_contains, lstrip_contains.
      * now apply rstrip_contains, lstrip_contains.
  - rewrite (parse_prompts_undelimited _ Hc) in Hok.
    injection Hok as <- <-.
    pose proof (split_length "|" s) as Hl.
    apply split_self_iff in Hc; rewrite Hc in Hl; simpl in Hl.
    injection Hl as Hl; simpl; rewrite <- Hl.
    repeat split; discriminate.
Qed.

Lemma parse_prompts_ok_shape_witness :
  parse_prompts (PyString " a cat :2| a dog:1e0 ")
  = Ok (["a cat"; "a dog"]%string,
        [WFloat (PyFloat.Finite false 2 0); WFloat (PyFloat.Finite false 1 0)])
  /\ Forall (fun p => Text.starts_with " " p = false
                      /\ Text.ends_with " " p = false
                      /\ PyStr.contains ":" p = false
                      /\ PyStr.contains "|" p = false)
            ["a cat"; "a dog"]%string.
Proof.
  assert (H : parse_prompts (PyString " a cat :2| a dog:1e0 ")
              = Ok (["a cat"; "a dog"]%string,
                    [WFloat (PyFloat.Finite false 2 0);
                     WFloat (PyFloat.Finite false 1 0)])) by reflexivity.
  split; [exact H |].
  destruct (parse_prompts_ok_shape _ H) as (_ & _ & _ & Hd).
  exact (proj2 (proj2 (Hd eq_refl))).
Defined.

(** X8: splitting loses nothing: the segments the parser iterates over,
    joined again by '|', are the input; there is one more segment than
    there are '|' in the input, and no segment contains '|'. *)
Theorem split_join_roundtrip (s : string) :
  Text.join "|" (PyStr.split "|" s) = s
  /\ length (PyStr.split "|" s) = S (Text.count "|" s)
  /\ Forall (fun seg => PyStr.contains "|" seg = false) (PyStr.split "|" s).
Proof.
  split; [apply join_split | split];
    [apply split_length | apply split_parts_no_sep].
Qed.

End ParserDomain.

(** ** More on the scorer *)

Section ScorerMore.

Import Scorer.
Open Scope R_scope.

Lemma vmul_comm (x y : vec) : vmul x y = vmul y x.
Proof.
  unfold vmul; revert y; induction x as [| a x IH]; intros [| b y]; simpl;
    try reflexivity.
  rewrite IH; f_equal; ring.
Qed.

Lemma norm2_length (x : vec) : length (norm2 x) = length x.
Proof. unfold norm2; apply length_map. Qed.



(** X9: the scorer does not depend on the order of its arguments. *)
Theorem spherical_dist_loss_sym (x y : vec) :
  spherical_dist_loss [x] y = spherical_dist_loss [y] x.
Proof.
  unfold spherical_dist_loss, spherical_dist_loss1; simpl.
  now rewrite vmul_comm.
Qed.

(** X10: on nonzero vectors [norm2] returns a vector of the same length
    and of unit length, and normalising again changes nothing. *)
Theorem norm2_unit (x : vec) :
  nonzero x ->
  length (norm2 x) = length x
  /\ sum (square (norm2 x)) = 1
  /\ norm2 (norm2 x) = norm2 x.
Proof.
  intros Hx; pose proof (sum_square_norm2 Hx) as H1.
  split; [apply norm2_length | split; [exact H1 |]].
  unfold norm2 at 1; rewrite H1, sqrt_1.
  rewrite <- (map_id (norm2 x)) at 2; apply map_ext; intros a; field.
Qed.

Lemma norm2_unit_witness :
  nonzero [3; 4]
  /\ (length (norm2 [3; 4]) = 2%nat
      /\ sum (square (norm2 [3; 4])) = 1
      /\ norm2 (norm2 [3; 4]) = norm2 [3; 4]).
Proof.
  assert (H : nonzero [3; 4]) by (apply Exists_cons_hd; lra).
  split; [exact H | exact (norm2_unit H)].
Defined.






(** X13: orthogonal vectors are a quarter turn apart: their loss is
    pi^2/8. *)
Theorem spherical_dist_loss_orthogonal (x y : vec) :
  nonzero x -> nonzero y -> sum (vmul x y) = 0 ->
  spherical_dist_loss1 x y = PI² / 8.
Proof.
  intros Hx Hy H0; unfold spherical_dist_loss1.
  rewrite (dot_norm2 Hx Hy), H0.
  assert (Hz : forall r, 0 / r = 0) by (intros r; unfold Rdiv; ring).
  rewrite Hz, acos_0.
  unfold Rsqr; field.
Qed.

Lemma spherical_dist_loss_orthogonal_witness :
  (nonzero [1; 2] /\ nonzero [-2; 1] /\ sum (vmul [1; 2] [-2; 1]) = 0)
  /\ spherical_dist_loss1 [1; 2] [-2; 1] = PI² / 8.
Proof.
  assert (H1 : nonzero [1; 2]) by (apply Exists_cons_hd; lra).
  assert (H2 : nonzero [-2; 1]) by (apply Exists_cons_hd; lra).
  assert (H3 : sum (vmul [1; 2] [-2; 1]) = 0) by (unfold vmul; simpl; ring).
  split; [repeat split; assumption |].
  exact (spherical_dist_loss_orthogonal H1 H2 H3).
Defined.

End ScorerMore.

(** ** More on the guidance loss *)

Section GuidanceMore.

Import Guidance.
Open Scope R_scope.

Variable B : Backend.
Variable c : closure B.





Lemma sum_app (l1 l2 : list R) :
  Scorer.sum (l1 ++ l2) = Scorer.sum l1 + Scorer.sum l2.
Proof.
  unfold Scorer.sum; induction l1 as [| r l1 IH]; simpl; [ring |].
  rewrite IH; ring.
Qed.

Lemma weighted_sum_app (embeds : list (list R))
      (l1 l2 : list (list R * R)) :
  SpecWords.weighted_sum embeds (l1 ++ l2)
  = SpecWords.weighted_sum embeds l1 + SpecWords.weighted_sum embeds l2.
Proof. unfold SpecWords.weighted_sum; now rewrite map_app, sum_app. Qed.

Lemma weighted_sum_perm (embeds : list (list R))
      (l1 l2 : list (list R * R)) :
  Permutation l1 l2 ->
  SpecWords.weighted_sum embeds l1 = SpecWords.weighted_sum embeds l2.
Proof.
  unfold SpecWords.weighted_sum, Scorer.sum.
  induction 1 as [| ew l1 l2 _ IH | e1 e2 l | l1 l2 l3 _ IH1 _ IH2]; simpl.
  - reflexivity.
  - now rewrite IH.
  - ring.
  - now rewrite IH1.
Qed.

Lemma image_embeds_with_targets (te : list (list R)) (tw : list R)
      (tie : list (list R)) (tiw : list R) (x : tensor B) (k : key B)
      (p : params B) (cp : clip_params B) (t : R) (ea : extra_args B) :
  image_embeds (Targets.with_targets c te tw tie tiw) x k p cp t ea
  = image_embeds c x k p cp t ea.
Proof. reflexivity. Qed.

(** X15: the total loss is a plain sum over the targets: it is the same
    for any two closures whose (embedding, weight) pairs are
    rearrangements of each other, whatever their order and whichever of
    the two sets, text or image, each pair sits in. *)
Theorem clip_cond_fn_loss_permutation
        (te te' : list (list R)) (tw tw' : list R)
        (tie tie' : list (list R)) (tiw tiw' : list R)
        (x : tensor B) (k : key B) (p : params B) (cp : clip_params B)
        (t : R) (ea : extra_args B) :
  Permutation (combine te tw ++ combine tie tiw)
              (combine te' tw' ++ combine tie' tiw') ->
  num_val (clip_cond_fn_loss (Targets.with_targets c te tw tie tiw)
                             x k p cp t ea)
  = num_val (clip_cond_fn_loss (Targets.with_targets c te' tw' tie' tiw')
                               x k p cp t ea).
Proof.
  intros HP; rewrite !clip_cond_fn_loss_val, !image_embeds_with_targets.
  unfold SpecWords.total_loss; simpl.
  rewrite <- !weighted_sum_app; now apply weighted_sum_perm.
Qed.

End GuidanceMore.

Section GuidanceMoreExamples.

Import Guidance.
Open Scope R_scope.


Lemma clip_cond_fn_loss_permutation_witness :
  let c := ShapeOnly.guidance_closure [] [] [] [] in
  let x : tensor ShapeOnly.backend := [2; 3; 64; 64]%nat in
  Permutation (combine [[1; 0]] [2] ++ combine [[0; 1]] [3])
              (combine [[0; 1]] [3] ++ combine [[1; 0]] [2])
  /\ num_val (clip_cond_fn_loss
                (Targets.with_targets c [[1; 0]] [2] [[0; 1]] [3])
                x 0%nat tt tt (1 / 2) tt)
     = num_val (clip_cond_fn_loss
                  (Targets.with_targets c [[0; 1]] [3] [[1; 0]] [2])
                  x 0%nat tt tt (1 / 2) tt).
Proof.
  intros c x.
  assert (H : Permutation (combine [[1; 0]] [2] ++ combine [[0; 1]] [3])
                          (combine [[0; 1]] [3] ++ combine [[1; 0]] [2]))
    by apply perm_swap.
  split; [exact H |].
  exact (@clip_cond_fn_loss_permutation ShapeOnly.backend c
           [[1; 0]] [[0; 1]] [2] [3] [[0; 1]] [[1; 0]] [3] [2]
           x 0%nat tt tt (1 / 2) tt H).
Defined.

End GuidanceMoreExamples.

(** ** More on the control loop *)

Section ControlLoopMore.

Import Program.
Open Scope R_scope.

Lemma timesteps_map (n : nat) :
  (1 <= n)%nat ->
  Schedule.timesteps (Z.of_nat n)
  = map (fun k => 1 - INR k / INR n) (seq 0 n).
Proof.
  intros Hn; unfold Schedule.timesteps.
  replace (Z.to_nat (Z.of_nat n + 1)) with (S n) by lia.
  destruct n as [| m]; [lia |].
  change (linspace 1 0 (S (S m)))
    with (map (fun k => 1 + (0 - 1) * INR k / INR (S (S m) - 1))
              (seq 0 (S (S m)))).
  rewrite (seq_S (S m) 0), map_app; simpl map at 2.
  rewrite removelast_last.
  apply map_ext; intros k.
  replace (S (S m) - 1)%nat with (S m) by lia.
  unfold Rdiv; ring.
Qed.

Lemma map_seq_sorted (A : Type) (R : A -> A -> Prop) (f : nat -> A)
      (n s : nat) :
  (forall i j, (s <= i < j)%nat -> (j < s + n)%nat -> R (f i) (f j)) ->
  StronglySorted R (map f (seq s n)).
Proof.
  revert s; induction n as [| n IH]; intros s HR; simpl; constructor.
  - apply IH; intros i j Hij Hj; apply HR; lia.
  - apply Forall_forall; intros y Hy; apply in_map_iff in Hy.
    destruct Hy as (j & <- & Hj); apply in_seq in Hj; apply HR; lia.
Qed.

(** X16: for a step count of at least 1 the schedule is built from
    exactly that many timesteps, the k-th being 1 - k/steps: they start
    at 1, decrease strictly, and stay above 0, the end point 0 of the
    spacing being dropped. *)
Theorem timesteps_spec (B : Backend) (c : closure B) :
  (1 <= steps (a c))%Z ->
  let n := Z.to_nat (steps (a c)) in
  let ts := Schedule.timesteps (steps (a c)) in
  schedule c = get_ddpm_schedule B ts
  /\ length ts = n
  /\ (forall k, (k < n)%nat -> nth k ts 0 = 1 - INR k / INR n)
  /\ hd 0 ts = 1
  /\ Forall (fun t => 0 < t <= 1) ts
  /\ StronglySorted (fun t t' => t' < t) ts.
Proof.
  intros Hs n ts.
  assert (Hn : (1 <= n)%nat) by (unfold n; lia).
  assert (Hts : ts = map (fun k => 1 - INR k / INR n) (seq 0 n)).
  { unfold ts; rewrite <- (Z2Nat.id (steps (a c))) by lia.
    fold n; now apply timesteps_map. }
  assert (Hpos : 0 < INR n) by (apply lt_0_INR; lia).
  split; [reflexivity |].
  split; [now rewrite Hts, length_map, length_seq |].
  split.
  { intros k Hk; rewrite Hts.
    rewrite (nth_indep _ 0 ((fun k => 1 - INR k / INR n) 0%nat))
      by now rewrite length_map, length_seq.
    rewrite (map_nth (fun k => 1 - INR k / INR n)), seq_nth by exact Hk.
    reflexivity. }
  split.
  { rewrite Hts; destruct n as [| m]; [lia |]; simpl hd.
    change (INR 0) with 0; unfold Rdiv; ring. }
  split.
  { rewrite Hts; apply Forall_map, Forall_forall; intros k Hk.
    apply in_seq in Hk.
    assert (Hk0 : 0 <= INR k) by apply pos_INR.
    assert (Hkn : INR k < INR n) by (apply lt_INR; lia).
    assert (Hq : 0 <= INR k / INR n < 1).
    { split; [apply Rle_mult_inv_pos; assumption |].
      apply (Rmult_lt_reg_r (INR n)); [exact Hpos |].
      unfold Rdiv; rewrite Rmult_assoc, Rinv_l by lra; lra. }
    lra. }
  rewrite Hts; apply map_seq_sorted; intros i j Hij Hj.
  assert (Hlt : INR i < INR j) by (apply lt_INR; lia).
  assert (Hd : INR i / INR n < INR j / INR n).
  { unfold Rdiv; apply Rmult_lt_compat_r; [| exact Hlt].
    now apply Rinv_0_lt_compat. }
  lra.
Qed.

Lemma timesteps_spec_witness :
  let c := ShapeOnly.program_closure
             (ShapeOnly.demo_args "a cat" None (Prompt.PyString "") 1 1 4)
             None in
  (1 <= steps (a c))%Z
  /\ (length (Schedule.timesteps 4) = 4%nat
      /\ hd 0 (Schedule.timesteps 4) = 1
      /\ Forall (fun t => 0 < t <= 1) (Schedule.timesteps 4)).
Proof.
  intros c.
  assert (H : (1 <= steps (a c))%Z) by (simpl; lia).
  split; [exact H |].
  destruct (@timesteps_spec ShapeOnly.backend c H)
    as (_ & Hl & _ & Hh & Hf & _).
  split; [exact Hl | split; [exact Hh | exact Hf]].
Defined.

(** X17: when the schedule does not increase, truncation only drops a
    prefix: what is kept is the schedule from some position on, and all
    that is dropped is at or above the starting timestep. *)
Theorem truncate_suffix (B : Backend) (c : closure B) (sched : list R) :
  StronglySorted (fun t t' => t' <= t) sched ->
  exists k,
    truncate c sched = skipn k sched
    /\ Forall (fun t => starting_timestep (a c) <= t) (firstn k sched).
Proof.
  intros Hs; induction Hs as [| t sched Hs IH Hall].
  - exists 0%nat; split; [reflexivity | constructor].
  - unfold truncate; simpl filter.
    destruct (Rltb t (starting_timestep (a c))) eqn:E.
    + exists 0%nat; split; [| constructor].
      simpl; f_equal.
      apply Rltb_true in E.
      clear IH Hs; induction Hall as [| t' sched Ht' _ IH]; simpl;
        [reflexivity |].
      assert (E' : Rltb t' (starting_timestep (a c)) = true)
        by (apply Rltb_true; lra).
      now rewrite E', IH.
    + destruct IH as (k & Hk & Hf); exists (S k); split; [exact Hk |].
      simpl; constructor; [| exact Hf].
      destruct (Rle_lt_dec (starting_timestep (a c)) t) as [H | H];
        [exact H |].
      apply Rltb_true in H; congruence.
Qed.

Lemma truncate_suffix_witness :
  let c := ShapeOnly.program_closure
             (ShapeOnly.demo_args "a cat" (Some "init.png")
                                  (Prompt.PyString "") 1 1 2)
             (Some [1; 3; 4; 4]%nat) in
  StronglySorted (fun t t' => t' <= t) [1; 1 / 2; 1 / 4]
  /\ exists k,
      truncate c [1; 1 / 2; 1 / 4] = skipn k [1; 1 / 2; 1 / 4]
      /\ Forall (fun t => 9 / 10 <= t) (firstn k [1; 1 / 2; 1 / 4]).
Proof.
  intros c.
  assert (H : StronglySorted (fun t t' => t' <= t) [1; 1 / 2; 1 / 4]).
  { repeat (constructor; [| repeat (apply Forall_cons; [lra |]);
                            apply Forall_nil]).
    constructor. }
  split; [exact H |].
  exact (@truncate_suffix ShapeOnly.backend c [1; 1 / 2; 1 / 4] H).
Defined.



End ControlLoopMore.

(** ** More on the batch driver *)

Section BatchDriverMore.

Import Program.
Open Scope string_scope.
Open Scope list_scope.
Open Scope Z_scope.

Lemma read_digits_zero (s : string) :
  Names.read_digits (String "0" s) = Names.read_digits s.
Proof.
  unfold Names.read_digits; simpl.
  now destruct (NilEmpty.uint_of_string s).
Qed.

Lemma read_digits_zeros (k : nat) (s : string) :
  Names.read_digits (PyInt.zeros k ++ s)%string = Names.read_digits s.
Proof.
  induction k as [| k IH]; simpl; [reflexivity |].
  now rewrite read_digits_zero.
Qed.

Lemma read_digits_digits (n : N) :
  Names.read_digits (PyInt.digits n) = Some n.
Proof.
  unfold Names.read_digits, PyInt.digits, NilZero.string_of_uint.
  destruct (N.to_uint n) as [| | | | | | | | | |] eqn:E;
    try (rewrite <- E at 1; rewrite NilEmpty.usu; simpl;
         now rewrite DecimalN.Unsigned.of_to).
  simpl; f_equal.
  rewrite <- (DecimalN.Unsigned.of_to n), E; reflexivity.
Qed.

Lemma length_append (s1 s2 : string) :
  String.length (s1 ++ s2)%string
  = (String.length s1 + String.length s2)%nat.
Proof.
  induction s1 as [| ch s1 IH]; simpl; [reflexivity | now rewrite IH].
Qed.

Lemma zfill_length (w : nat) (s : string) :
  (w <= String.length (PyInt.zfill w s))%nat.
Proof.
  unfold PyInt.zfill.
  assert (Hz : forall k, String.length (PyInt.zeros k) = k)
    by (induction k as [| k IH]; simpl; [reflexivity | now rewrite IH]).
  pose proof length_append as Ha.
  rewrite Ha, Hz; lia.
Qed.

Lemma append_cancel_r (t : string) :
  forall s1 s2 : string, (s1 ++ t)%string = (s2 ++ t)%string -> s1 = s2.
Proof.
  pose proof length_append as Ha.
  induction s1 as [| c1 s1 IH]; intros [| c2 s2] H; simpl in H.
  - reflexivity.
  - apply (f_equal String.length) in H; simpl in H; rewrite Ha in H; lia.
  - apply (f_equal String.length) in H; simpl in H; rewrite Ha in H; lia.
  - injection H as -> H; f_equal; now apply IH.
Qed.

Lemma format_05_read (k : Z) :
  0 <= k -> Names.read_digits (PyInt.format_05 k) = Some (Z.to_N k).
Proof.
  intros Hk; unfold PyInt.format_05.
  destruct (Z.ltb_spec k 0) as [H | _]; [lia |].
  unfold PyInt.zfill; rewrite read_digits_zeros, read_digits_digits.
  f_equal; lia.
Qed.

Lemma out_name_roundtrip_inj (i j : Z) :
  0 <= i -> 0 <= j -> PyInt.out_name i = PyInt.out_name j -> i = j.
Proof.
  intros Hi Hj; unfold PyInt.out_name; intros H; simpl in H.
  injection H as H; apply append_cancel_r in H.
  apply (f_equal Names.read_digits) in H.
  rewrite !format_05_read in H by assumption.
  injection H as H; lia.
Qed.

(** X5: the five-digit field of a file name reads back as the index it
    was made from, and is at least five characters long; so two different
    indices never give the same file name. *)
Theorem out_name_roundtrip (i j : Z) :
  0 <= i -> 0 <= j ->
  Names.read_digits (PyInt.format_05 i) = Some (Z.to_N i)
  /\ (5 <= String.length (PyInt.format_05 i))%nat
  /\ (PyInt.out_name i = PyInt.out_name j -> i = j).
Proof.
  intros Hi Hj.
  split; [now apply format_05_read |]; split.
  - unfold PyInt.format_05.
    destruct (Z.ltb_spec i 0) as [H | _]; [lia | apply zfill_length].
  - now apply out_name_roundtrip_inj.
Qed.

Lemma out_name_roundtrip_witness :
  (0 <= 42 /\ 0 <= 123456)
  /\ (Names.read_digits (PyInt.format_05 42) = Some 42%N
      /\ (5 <= String.length (PyInt.format_05 42))%nat
      /\ (PyInt.out_name 42 = PyInt.out_name 123456 -> 42 = 123456)).
Proof.
  assert (H1 : 0 <= 42) by lia.
  assert (H2 : 0 <= 123456) by lia.
  split; [split; assumption | exact (out_name_roundtrip H1 H2)].
Defined.

Variable B : Backend.
Variable run_fn : key B -> Z -> result (tensor B).

(** What the driver writes when every request is served. *)
Lemma run_all_with_files (k : key B) (N Bsz : Z) :
  1 <= N -> 1 <= Bsz -> returns_batches B run_fn ->
  saved_files (fst (run_all_with B run_fn k N Bsz)) = SpecWords.file_names N.
Proof.
  intros HN HB Hrun.
  set (q := (N - 1) / Bsz).
  assert (Hq0 : 0 <= q) by (apply Z.div_pos; lia).
  assert (Hq1 : q * Bsz <= N - 1)
    by (unfold q; rewrite Z.mul_comm; apply Z.mul_div_le; lia).
  assert (Hq2 : N - 1 < (q + 1) * Bsz).
  { unfold q; rewrite Z.mul_comm.
    replace ((N - 1) / Bsz + 1) with (Z.succ ((N - 1) / Bsz)) by lia.
    apply Z.mul_succ_div_gt; lia. }
  destruct (@run_all_loop_spec B run_fn N Bsz Hrun HB (Z.to_nat (q + 1)) 0 k
              (Z.to_nat N)) as (_ & _ & _ & R4); try lia; try nia.
  unfold run_all_with; rewrite (range_indices HN HB); fold q.
  unfold io_bind, io_lift; simpl.
  rewrite R4, Z.sub_0_r; unfold SpecWords.file_names.
  apply map_ext; intros j; f_equal.
Qed.

(** X19: for N >= 1 and B >= 1, with a control loop that returns the
    batch it is asked for, the driver writes N files under N different
    names: no output overwrites another. *)
Theorem run_all_files_distinct (k : key B) (N Bsz : Z) :
  1 <= N -> 1 <= Bsz -> returns_batches B run_fn ->
  let files := saved_files (fst (run_all_with B run_fn k N Bsz)) in
  length files = Z.to_nat N /\ NoDup files.
Proof.
  intros HN HB Hrun files; unfold files.
  rewrite (run_all_with_files k HN HB Hrun); unfold SpecWords.file_names.
  split; [now rewrite length_map, length_seq |].
  apply Injective_map_NoDup; [| apply seq_NoDup].
  intros i j H.
  assert (Hi : 0 <= Z.of_nat i) by lia.
  assert (Hj : 0 <= Z.of_nat j) by lia.
  apply (out_name_roundtrip_inj Hi Hj) in H; lia.
Qed.

(** X20: a batch size of 0 ends the driver with the ValueError of [range]
    before anything is requested; with a batch size of at least 1, a
    sample count of 0 or less makes it return at once, nothing requested
    and nothing written. *)
Theorem run_all_degenerate (k : key B) (N : Z) :
  run_all_with B run_fn k N 0
  = ([], Raise (ValueError "range() arg 3 must not be zero"))
  /\ (forall Bsz, N <= 0 -> 1 <= Bsz ->
                  run_all_with B run_fn k N Bsz = ([], Ok tt)).
Proof.
  split; [reflexivity |].
  intros Bsz HN HB; unfold run_all_with, PyInt.range, PyInt.range_len.
  destruct (Z.eqb_spec Bsz 0) as [-> | _]; [lia |].
  destruct (Z.ltb_spec 0 Bsz) as [_ | H]; [| lia].
  destruct (Z.ltb_spec 0 N) as [H | _]; [lia |].
  reflexivity.
Qed.

Lemma run_all_loop_failure (N Bsz : Z) (e : exn) :
  forall (idxs : list Z) (k : key B),
    snd (run_all_loop B run_fn N Bsz idxs k) = Raise e ->
    exists tr k' m,
      fst (run_all_loop B run_fn N Bsz idxs k) = tr ++ [EvRun B k' m]
      /\ run_fn k' m = Raise e.
Proof.
  induction idxs as [| i rest IH]; intros k; [discriminate |].
  destruct (run_fn (fst (split B k)) (Z.min (N - i) Bsz)) as [outs | e']
    eqn:E.
  - rewrite (@run_all_loop_step B run_fn N Bsz i rest k outs E).
    simpl fst; simpl snd; intros H.
    destruct (IH _ H) as (tr & k' & m & Htr & Hrun).
    exists (EvRun B (fst (split B k)) (Z.min (N - i) Bsz)
            :: save_all B i outs ++ tr), k', m.
    split; [| exact Hrun].
    rewrite Htr; simpl; now rewrite <- app_assoc.
  - simpl run_all_loop; destruct (split B k) as [k1 sk]; simpl fst in *.
    unfold io_bind, io_emit, io_lift; simpl; rewrite E; simpl.
    intros H; injection H as ->.
    now exists [], k1, (Z.min (N - i) Bsz).
Qed.

(** X21: the driver stops at the first request the control loop fails:
    when it ends with an error, for a batch size other than 0, the last
    thing it did was that request, the error is the one the request
    raised, and whatever was written before stays written. *)
Theorem run_all_stops_at_failure (k : key B) (N Bsz : Z) (e : exn) :
  Bsz <> 0 ->
  snd (run_all_with B run_fn k N Bsz) = Raise e ->
  exists tr k' m,
    fst (run_all_with B run_fn k N Bsz) = tr ++ [EvRun B k' m]
    /\ run_fn k' m = Raise e.
Proof.
  intros HB; unfold run_all_with, PyInt.range.
  destruct (Z.eqb_spec Bsz 0) as [-> | _]; [now elim HB |].
  unfold io_bind, io_lift; simpl.
  set (idxs := map _ _).
  destruct (run_all_loop B run_fn N Bsz idxs k) as [tr r] eqn:E; simpl.
  intros Hr.
  destruct (@run_all_loop_failure N Bsz e idxs k) as (tr' & k' & m & H1 & H2).
  - now rewrite E.
  - exists tr', k', m; split; [| exact H2].
    now rewrite E in H1.
Qed.

End BatchDriverMore.

Section BatchDriverExamples.

Import Program.
Open Scope string_scope.
Open Scope list_scope.
Open Scope Z_scope.

Lemma run_all_files_distinct_witness :
  let c := ShapeOnly.program_closure
             (ShapeOnly.demo_args "a cat" None (Prompt.PyString "") 3 2 2)
             None in
  let files := saved_files (fst (run_all c 0%nat 3 2)) in
  (1 <= 3 /\ 1 <= 2 /\ returns_batches ShapeOnly.backend (run c))
  /\ (length files = 3%nat /\ NoDup files).
Proof.
  intros c files.
  assert (H1 : 1 <= 3) by lia.
  assert (H2 : 1 <= 2) by lia.
  assert (H3 : returns_batches ShapeOnly.backend (run c)).
  { intros k m Hm; apply run_returns_batch;
      [reflexivity | lia | simpl; lia]. }
  split; [repeat split; assumption |].
  exact (@run_all_files_distinct ShapeOnly.backend (run c) 0%nat 3 2
           H1 H2 H3).
Defined.

Lemma run_all_stops_at_failure_witness :
  let c := ShapeOnly.program_closure
             (ShapeOnly.demo_args "a cat" (Some "init.png")
                                  (Prompt.PyString "") 3 2 0)
             (Some [1; 3; 4; 4]%nat) in
  let e := IndexError "index is out of bounds for axis 0 with size 0" in
  (2 <> 0 /\ snd (run_all c 0%nat 3 2) = Raise e)
  /\ exists tr k' m,
      fst (run_all c 0%nat 3 2)
      = tr ++ [EvRun ShapeOnly.backend k' m]
      /\ run c k' m = Raise e.
Proof.
  intros c e.
  assert (H1 : 2 <> 0) by lia.
  assert (H2 : snd (run_all c 0%nat 3 2) = Raise e) by reflexivity.
  split; [split; assumption |].
  exact (@run_all_stops_at_failure ShapeOnly.backend (run c) 0%nat 3 2 e
           H1 H2).
Defined.

End BatchDriverExamples.

(** ** More on [main] *)

Section MainMore.

Import Program.
Open Scope string_scope.
Open Scope list_scope.

Variable B : Backend.

Lemma io_map_emit (A C : Type) (ev : A -> event B) (f : A -> C)
      (l : list A) :
  io_map (fun p => _ <~ io_emit (ev p) ;; io_ret (f p)) l
  = (map ev l, Ok (map f l)).
Proof.
  induction l as [| x l IH]; simpl; [reflexivity |].
  rewrite IH; unfold io_bind, io_emit, io_ret; simpl.
  now rewrite ?app_nil_r.
Qed.

Lemma text_targets_ok (cp : clip_params B) (s : string) (ps : list string)
      (ws : list Prompt.weight) :
  (if String.eqb s "" then Ok ([], [])
   else Prompt.parse_prompts (Prompt.PyString s)) = Ok (ps, ws) ->
  text_targets B cp s
  = (map (EvTextEmbed B) ps, Ok (map (text_fn B cp) ps, ws)).
Proof.
  unfold text_targets; destruct (String.eqb s "").
  - intros H; injection H as <- <-; reflexivity.
  - intros H; rewrite H; unfold io_bind at 1; simpl.
    rewrite io_map_emit; unfold io_bind; simpl.
    now rewrite app_nil_r.
Qed.

Lemma image_targets_ok (cp : clip_params B) (x : Prompt.pyarg)
      (ps : list string) (ws : list Prompt.weight) :
  (if ne_empty x then Prompt.parse_prompts x else Ok ([], [])) = Ok (ps, ws) ->
  image_targets B cp x
  = (map (EvOpenTarget B) ps,
     Ok (map (fun p => hd [] (image_fn B cp (open_target B p))) ps, ws)).
Proof.
  unfold image_targets; destruct (ne_empty x).
  - intros H; rewrite H; unfold io_bind at 1; simpl.
    rewrite io_map_emit; unfold io_bind; simpl.
    now rewrite app_nil_r.
  - intros H; injection H as <- <-; reflexivity.
Qed.

(** X22: when both target specifications parse and the initial image, if
    any, loads, [main] sets up in this order: model, checkpoint, embedding
    model, one text encoding per text prompt, the initial image, one
    image opened per image target; the closure it builds holds one
    embedding per prompt with the parsed weights, resolution 224 and patch
    size 16, and sampling starts from the key of the seed. *)
Theorem setup_ok (ar : args) (ps ips : list string)
        (ws iws : list Prompt.weight) (ini : option (tensor B)) :
  let m := get_model B (model_name ar) in
  let cp := clip_load B "ViT-B/16" in
  (if String.eqb (prompt ar) "" then Ok ([], [])
   else Prompt.parse_prompts (Prompt.PyString (prompt ar))) = Ok (ps, ws) ->
  snd (load_init B m (init ar)) = Ok ini ->
  (if ne_empty (target_img ar) then Prompt.parse_prompts (target_img ar)
   else Ok ([], [])) = Ok (ips, iws) ->
  exists c,
    setup B ar
    = ([EvGetModel B (model_name ar);
        EvLoadParams B (checkpoint_path ar);
        EvLoadClip B "ViT-B/16"]
       ++ map (EvTextEmbed B) ps
       ++ fst (load_init B m (init ar))
       ++ map (EvOpenTarget B) ips,
       Ok (c, PRNGKey B (seed ar)))
    /\ Guidance.target_embeds (guidance c) = map (text_fn B cp) ps
    /\ Guidance.target_w (guidance c) = map (weight_val B) ws
    /\ Guidance.target_img_embeds (guidance c)
       = map (fun p => hd [] (image_fn B cp (open_target B p))) ips
    /\ Guidance.target_img_w (guidance c) = map (weight_val B) iws
    /\ Guidance.clip_size (guidance c) = 224%nat
    /\ Guidance.clip_patch_size (guidance c) = 16%nat
    /\ Guidance.clip_guidance_scale (guidance c) = arg_clip_guidance_scale ar
    /\ init_image c = ini
    /\ the_params c = load_params B (checkpoint_path ar).
Proof.
  intros m cp Htxt Hini Himg.
  eexists; split.
  - unfold setup.
    rewrite (text_targets_ok (clip_load B "ViT-B/16") (prompt ar) Htxt).
    rewrite (image_targets_ok (clip_load B "ViT-B/16") (target_img ar) Himg).
    fold m.
    destruct (load_init B m (init ar)) as [tri ri] eqn:Ei.
    simpl in Hini; subst ri.
    unfold io_bind, io_emit, io_ret; simpl.
    rewrite app_nil_r; reflexivity.
  - simpl; repeat split; reflexivity.
Qed.



(** X24: with an empty prompt, an empty image-target string and no
    initial image, [main] loads the three models and goes on to sample
    with no target at all; the guidance function it hands to the sampler
    then raises TypeError on every call. *)
Theorem main_no_targets (ar : args) :
  prompt ar = "" ->
  target_img ar = Prompt.PyString "" ->
  truthy (init ar) = false ->
  exists c,
    setup B ar
    = ([EvGetModel B (model_name ar);
        EvLoadParams B (checkpoint_path ar);
        EvLoadClip B "ViT-B/16"],
       Ok (c, PRNGKey B (seed ar)))
    /\ fst (main B ar)
       = [EvGetModel B (model_name ar);
          EvLoadParams B (checkpoint_path ar);
          EvLoadClip B "ViT-B/16"]
         ++ fst (run_all c (PRNGKey B (seed ar)) (n ar) (batch_size ar))
    /\ forall x k t ea,
        cond_fn c x k t ea = Raise (TypeError Guidance.grad_int_output).
Proof.
  intros Hp Ht Hi.
  assert (Hini : load_init B (get_model B (model_name ar)) (init ar)
                 = ([], Ok None)).
  { unfold load_init, truthy in *; destruct (init ar) as [path |];
      [| reflexivity].
    destruct (String.eqb path ""); [reflexivity | discriminate]. }
  destruct (@setup_ok ar [] [] [] [] None) as (c & Hs & H1 & H2 & H3 & H4 & _).
  - now rewrite Hp.
  - now rewrite Hini.
  - now rewrite Ht.
  - assert (Hs' : setup B ar
                  = ([EvGetModel B (model_name ar);
                      EvLoadParams B (checkpoint_path ar);
                      EvLoadClip B "ViT-B/16"],
                     Ok (c, PRNGKey B (seed ar))))
      by (rewrite Hs, Hini; reflexivity).
    exists c; split; [exact Hs' | split].
    + unfold main; rewrite Hs'; reflexivity.
    + intros x k t ea; unfold cond_fn.
      apply clip_cond_fn_no_target.
      now rewrite H1, H2, H3, H4.
Qed.

End MainMore.

Section MainExamples.

Import Program.
Open Scope string_scope.
Open Scope list_scope.

Lemma setup_ok_witness :
  let ar := ShapeOnly.demo_args "a cat:2|a dog:1" None
                                (Prompt.PyString "x.png") 1 1 50 in
  let ps := ["a cat"; "a dog"] in
  let ws := [Prompt.WFloat (PyFloat.Finite false 2 0);
             Prompt.WFloat (PyFloat.Finite false 1 0)] in
  ((if String.eqb (prompt ar) "" then Ok ([], [])
    else Prompt.parse_prompts (Prompt.PyString (prompt ar))) = Ok (ps, ws)
   /\ snd (load_init ShapeOnly.backend tt (init ar)) = Ok None
   /\ (if ne_empty (target_img ar) then Prompt.parse_prompts (target_img ar)
       else Ok ([], [])) = Ok (["x.png"], [Prompt.WInt 1]))
  /\ exists c,
      fst (setup ShapeOnly.backend ar)
      = [EvGetModel ShapeOnly.backend "cc12m_1";
         EvLoadParams ShapeOnly.backend "checkpoints/cc12m_1.pkl";
         EvLoadClip ShapeOnly.backend "ViT-B/16";
         EvTextEmbed ShapeOnly.backend "a cat";
         EvTextEmbed ShapeOnly.backend "a dog";
         EvOpenTarget ShapeOnly.backend "x.png"]
      /\ snd (setup ShapeOnly.backend ar) = Ok (c, 0%nat)
      /\ length (Guidance.target_embeds (guidance c)) = 2%nat
      /\ length (Guidance.target_img_embeds (guidance c)) = 1%nat.
Proof.
  intros ar ps ws.
  assert (H1 : (if String.eqb (prompt ar) "" then Ok ([], [])
                else Prompt.parse_prompts (Prompt.PyString (prompt ar)))
               = Ok (ps, ws)) by reflexivity.
  assert (H2 : snd (load_init ShapeOnly.backend tt (init ar)) = Ok None)
    by reflexivity.
  assert (H3 : (if ne_empty (target_img ar)
                then Prompt.parse_prompts (target_img ar)
                else Ok ([], [])) = Ok (["x.png"], [Prompt.WInt 1]))
    by reflexivity.
  split; [repeat split; assumption |].
  destruct (@setup_ok ShapeOnly.backend ar ps ["x.png"] ws [Prompt.WInt 1]
              None H1 H2 H3) as (c & Hs & E1 & _ & E3 & _).
  exists c; rewrite Hs, E1, E3.
  repeat split; reflexivity.
Defined.

Lemma main_no_targets_witness :
  let ar := ShapeOnly.demo_args "" None (Prompt.PyString "") 1 1 50 in
  (prompt ar = "" /\ target_img ar = Prompt.PyString ""
   /\ truthy (init ar) = false)
  /\ exists c,
      snd (setup ShapeOnly.backend ar) = Ok (c, 0%nat)
      /\ cond_fn c [1; 3; 4; 4]%nat 5%nat (1 / 2)%R tt
         = Raise (TypeError Guidance.grad_int_output).
Proof.
  intros ar.
  assert (H1 : prompt ar = "") by reflexivity.
  assert (H2 : target_img ar = Prompt.PyString "") by reflexivity.
  assert (H3 : truthy (init ar) = false) by reflexivity.
  split; [repeat split; assumption |].
  destruct (@main_no_targets ShapeOnly.backend ar H1 H2 H3)
    as (c & Hs & _ & Hc).
  exists c; split; [now rewrite Hs | apply Hc].
Defined.

End MainExamples.

(** ** [resize_image] *)

Section ResizeFacts.

Import Resize.
Open Scope R_scope.

Lemma py_round_IZR (z : Z) : py_round (IZR z) = z.
Proof.
  assert (Hn : Int_part (IZR z) = z)
    by (symmetry; apply Int_part_spec; lra).
  unfold py_round, frac_part; rewrite Hn.
  destruct (Rlt_dec (IZR z - IZR z) (1 / 2)) as [_ | H]; [reflexivity | lra].
Qed.

Lemma py_round_near (x : R) :
  IZR (py_round x) - 1 / 2 <= x <= IZR (py_round x) + 1 / 2.
Proof.
  destruct (base_fp x) as [F0 F1]; unfold py_round.
  pose proof (Rplus_Int_part_frac_part x) as Hx.
  destruct (Rlt_dec (frac_part x) (1 / 2)) as [H | H]; [lra |].
  destruct (Rlt_dec (1 / 2) (frac_part x)) as [H' | H'].
  - rewrite plus_IZR; lra.
  - destruct (Z.even (Int_part x)); [lra | rewrite plus_IZR; lra].
Qed.

Lemma py_round_mono (x y : R) : x <= y -> (py_round x <= py_round y)%Z.
Proof.
  intros Hxy.
  destruct (base_fp x) as [X0 X1]; destruct (base_fp y) as [Y0 Y1].
  pose proof (Rplus_Int_part_frac_part x) as Hx.
  pose proof (Rplus_Int_part_frac_part y) as Hy.
  assert (Hn : (Int_part x <= Int_part y)%Z).
  { apply Z.lt_succ_r, lt_IZR; rewrite succ_IZR; lra. }
  unfold py_round.
  destruct (Z.eq_dec (Int_part x) (Int_part y)) as [E | E].
  - rewrite E in *.
    destruct (Rlt_dec (frac_part x) (1 / 2));
      destruct (Rlt_dec (1 / 2) (frac_part x));
      destruct (Rlt_dec (frac_part y) (1 / 2));
      destruct (Rlt_dec (1 / 2) (frac_part y));
      destruct (Z.even (Int_part y)); try lia; lra.
  - assert (Hlt : (Int_part x + 1 <= Int_part y)%Z) by lia.
    destruct (Rlt_dec (frac_part x) (1 / 2));
      destruct (Rlt_dec (1 / 2) (frac_part x));
      destruct (Rlt_dec (frac_part y) (1 / 2));
      destruct (Rlt_dec (1 / 2) (frac_part y));
      destruct (Z.even (Int_part x));
      destruct (Z.even (Int_part y)); lia.
Qed.

Lemma py_round_le (x : R) (z : Z) : x <= IZR z -> (py_round x <= z)%Z.
Proof.
  intros H; rewrite <- (py_round_IZR z) at 1; now apply py_round_mono.
Qed.

Lemma py_round_ge (x : R) (z : Z) : IZR z <= x -> (z <= py_round x)%Z.
Proof.
  intros H; rewrite <- (py_round_IZR z) at 1; now apply py_round_mono.
Qed.

Lemma sqrt_le_side (x s : R) : 0 <= s -> x <= s * s -> sqrt x <= s.
Proof.
  intros Hs Hx; rewrite <- (sqrt_square s Hs).
  destruct (Rle_lt_dec 0 x) as [H0 | H0].
  - now apply sqrt_le_1_alt.
  - rewrite (sqrt_neg_0 x) by lra; apply sqrt_pos.
Qed.

(** X25: [resize_image] never enlarges: for an image of at least one
    pixel the size it returns exceeds the image's in neither direction,
    and it is the image's own size whenever the image has no more pixels
    than the requested size; each side is within half a pixel of the
    side of the rectangle with the capped area and the image's aspect
    ratio. *)
Theorem resize_image_never_enlarges (w h ow oh : nat) :
  (1 <= w)%nat -> (1 <= h)%nat ->
  exists a b,
    resize_image (w, h) (ow, oh) = Some (a, b)
    /\ (0 <= a <= Z.of_nat w)%Z
    /\ (0 <= b <= Z.of_nat h)%Z
    /\ ((w * h <= ow * oh)%nat -> a = Z.of_nat w /\ b = Z.of_nat h)
    /\ Rabs (IZR a
             - sqrt (INR (Nat.min (w * h) (ow * oh)) * (INR w / INR h)))
       <= 1 / 2
    /\ Rabs (IZR b
             - sqrt (INR (Nat.min (w * h) (ow * oh)) / (INR w / INR h)))
       <= 1 / 2.
Proof.
  intros Hw Hh; unfold resize_image; simpl.
  destruct (Nat.eqb_spec h 0) as [E | _]; [lia |].
  destruct (Nat.eqb_spec w 0) as [E | _]; [lia |].
  set (area := Nat.min (w * h) (ow * oh)).
  assert (Pw : 0 < INR w) by (apply lt_0_INR; lia).
  assert (Ph : 0 < INR h) by (apply lt_0_INR; lia).
  assert (Pa : 0 <= INR area) by apply pos_INR.
  assert (Ha : INR area <= INR w * INR h).
  { rewrite <- mult_INR; apply le_INR; unfold area; lia. }
  assert (H1 : INR area * (INR w / INR h) <= INR w * INR w).
  { replace (INR w * INR w) with (INR w * INR h * (INR w / INR h))
      by (field; lra).
    apply Rmult_le_compat_r; [| exact Ha].
    apply Rlt_le, Rdiv_lt_0_compat; assumption. }
  assert (H2 : INR area / (INR w / INR h) <= INR h * INR h).
  { replace (INR area / (INR w / INR h)) with (INR area * (INR h / INR w))
      by (field; lra).
    replace (INR h * INR h) with (INR w * INR h * (INR h / INR w))
      by (field; lra).
    apply Rmult_le_compat_r; [| exact Ha].
    apply Rlt_le, Rdiv_lt_0_compat; assumption. }
  eexists; eexists; split; [reflexivity |].
  split; [| split; [| split; [| split]]].
  - split.
    + apply py_round_ge, sqrt_pos.
    + apply py_round_le; rewrite <- INR_IZR_INZ.
      apply sqrt_le_side; lra.
  - split.
    + apply py_round_ge, sqrt_pos.
    + apply py_round_le; rewrite <- INR_IZR_INZ.
      apply sqrt_le_side; lra.
  - intros Hle.
    assert (Earea : INR area = INR w * INR h).
    { rewrite <- mult_INR; f_equal; unfold area; lia. }
    rewrite Earea; split.
    + replace (INR w * INR h * (INR w / INR h)) with (INR w * INR w)
        by (field; lra).
      rewrite sqrt_square by lra.
      rewrite INR_IZR_INZ; apply py_round_IZR.
    + replace (INR w * INR h / (INR w / INR h)) with (INR h * INR h)
        by (field; lra).
      rewrite sqrt_square by lra.
      rewrite INR_IZR_INZ; apply py_round_IZR.
  - pose proof (py_round_near (sqrt (INR area * (INR w / INR h)))).
    apply Rabs_le; lra.
  - pose proof (py_round_near (sqrt (INR area / (INR w / INR h)))).
    apply Rabs_le; lra.
Qed.

Lemma resize_image_never_enlarges_witness :
  ((1 <= 4)%nat /\ (1 <= 3)%nat)
  /\ exists a b,
      resize_image (4, 3)%nat (2, 2)%nat = Some (a, b)
      /\ (0 <= a <= 4)%Z /\ (0 <= b <= 3)%Z.
Proof.
  assert (H1 : (1 <= 4)%nat) by lia.
  assert (H2 : (1 <= 3)%nat) by lia.
  split; [split; assumption |].
  destruct (@resize_image_never_enlarges 4 3 2 2 H1 H2)
    as (a & b & Hr & Ha & Hb & _).
  exists a, b; split; [exact Hr | split; [exact Ha | exact Hb]].
Defined.


End ResizeFacts.
